(** * A batch proxy for examination results: the two request handlers

    The repository holds two copies of one serverless handler,
    [api/regular/result.js] and an older copy whose file name is not known
    (called [part_000] below).  A handler validates four query parameters,
    derives five consecutive registration numbers from [reg_no], fetches
    each of them from the upstream result API and answers with one status
    object per number.

    Modelling decisions.
    - Strings are [string]s read as ASCII text.  [toUpperCase] maps the
      letters a-z only, and [parseInt] skips the ASCII white space only.
    - A query parameter is absent, a string, or, when its key is repeated in
      the query string, an array of the values given (Node's parser, which
      the Vercel runtime uses, builds the array from the second occurrence
      on, so an array has two elements at least).
    - An [async] function is a computation that threads the log of the
      upstream requests issued so far and ends in a value or in a thrown
      error.  The upstream server is a function from the request to what
      [fetch] and [json()] deliver for it.
    - A JSON number is [JNumber t], [t] being its text as JavaScript prints
      it ([Number.prototype.toString]); the text determines the number up
      to the sign of zero, so that comparing and printing numbers need no
      arithmetic.  [JNum z] is the number of the integer [z], for an
      integer that JavaScript prints in plain decimal. *)

From Stdlib Require Import ZArith String Ascii List DecimalString.
From stdpp Require Import base gmap strings list pretty.

Set Warnings "-register-all".
Open Scope string_scope.
Open Scope Z_scope.

(** ** Strings *)

Definition is_digit (c : ascii) : bool :=
  let n := N_of_ascii c in (48 <=? n)%N && (n <=? 57)%N.

Definition is_lower (c : ascii) : bool :=
  let n := N_of_ascii c in (97 <=? n)%N && (n <=? 122)%N.

Definition is_upper (c : ascii) : bool :=
  let n := N_of_ascii c in (65 <=? n)%N && (n <=? 90)%N.

Definition upper_char (c : ascii) : ascii :=
  if is_lower c then ascii_of_N (N_of_ascii c - 32) else c.

(** [String.prototype.toUpperCase] *)
Fixpoint toUpperCase (s : string) : string :=
  match s with
  | EmptyString => EmptyString
  | String c s' => String (upper_char c) (toUpperCase s')
  end.

(** The bounds that [slice(start, end)] selects in a sequence of [len]
    elements: the index of the first element and the number of elements.
    A negative index counts from the end; an omitted [end] is [len]. *)
Definition slice_bounds (len : nat) (start : Z) (end_ : option Z) : nat * nat :=
  let clamp (k : Z) := if k <? 0 then Z.max (Z.of_nat len + k) 0
                       else Z.min k (Z.of_nat len) in
  let from := clamp start in
  let to := match end_ with None => Z.of_nat len | Some e => clamp e end in
  (Z.to_nat from, Z.to_nat (Z.max (to - from) 0)).

Definition string_slice (s : string) (start : Z) (end_ : option Z) : string :=
  let '(from, count) := slice_bounds (String.length s) start end_ in
  substring from count s.

Definition array_slice {A} (l : list A) (start : Z) (end_ : option Z) : list A :=
  let '(from, count) := slice_bounds (length l) start end_ in
  take count (drop from l).

(** [String.prototype.padStart(targetLength, padString)] with a pad of one
    character. *)
Definition padStart (targetLength : nat) (pad : ascii) (s : string) : string :=
  string_of_list_ascii (replicate (targetLength - String.length s) pad) +:+ s.

(** [Number.prototype.toString()] of an integer that JavaScript holds
    exactly and prints in plain decimal (below 2^53 in absolute value), as
    are the numbers of the loop, the HTTP status codes and the literals 200
    and 404. *)
Definition Number_toString (i : Z) : string := pretty i.

(** *** The two regular expressions

    Both handlers test [reg_no] against a pattern of the shape [/^a{n}$/],
    where the atom [a] is the class [\d] in [result.js] and the letter [d]
    in [part_000]. *)

Inductive atom :=
| Digit                 (* \d *)
| Literal (c : ascii).  (* a character standing for itself *)

Definition atom_matches (a : atom) (c : ascii) : bool :=
  match a with
  | Digit => is_digit c
  | Literal c' => if decide (c = c') then true else false
  end.

(** [/^a{n}$/.test(s)] *)
Definition regex_test (a : atom) (n : nat) (s : string) : bool :=
  (String.length s =? n)%nat && forallb (atom_matches a) (list_ascii_of_string s).

(** *** parseInt *)

Definition is_white_space (c : ascii) : bool :=
  let n := N_of_ascii c in ((9 <=? n)%N && (n <=? 13)%N) || (n =? 32)%N.

Fixpoint trim_start (s : string) : string :=
  match s with
  | String c s' => if is_white_space c then trim_start s' else s
  | EmptyString => EmptyString
  end.

Definition digit_value (c : ascii) : option Z :=
  let n := Z.of_N (N_of_ascii c) in
  if is_digit c then Some (n - 48)
  else if is_lower c then Some (n - 97 + 10)
  else if is_upper c then Some (n - 65 + 10)
  else None.

(** The longest prefix of [s] made of digits of the radix, as a number;
    [acc] is [None] until a first digit has been read. *)
Fixpoint parse_digits (radix : Z) (s : string) (acc : option Z) : option Z :=
  match s with
  | EmptyString => acc
  | String c s' =>
      match digit_value c with
      | Some d =>
          if d <? radix then parse_digits radix s' (Some (default 0 acc * radix + d))
          else acc
      | None => acc
      end
  end.

Definition strip_sign (s : string) : Z * string :=
  match s with
  | String "-" s' => (-1, s')
  | String "+" s' => (1, s')
  | _ => (1, s)
  end.

Definition strip_hex_prefix (s : string) : option string :=
  match s with
  | String "0" (String "x" s') | String "0" (String "X" s') => Some s'
  | _ => None
  end.

(** [parseInt(s, radix)]; [None] is [NaN], and an omitted radix is [None]. *)
Definition parseInt (s : string) (radix : option Z) : option Z :=
  let '(sign, s1) := strip_sign (trim_start s) in
  let r := default 0 radix in
  if negb (r =? 0) && ((r <? 2) || (36 <? r)) then None
  else
    let strip := (r =? 0) || (r =? 16) in
    let r := if r =? 0 then 10 else r in
    let '(r, s2) := match strip_hex_prefix s1 with
                    | Some s' => if strip then (16, s') else (r, s1)
                    | None => (r, s1)
                    end in
    (λ n, sign * n) <$> parse_digits r s2 None.

Definition isNaN (n : option Z) : bool := negb (bool_decide (is_Some n)).

(** *** encodeURIComponent *)

Definition is_unreserved (c : ascii) : bool :=
  is_digit c || is_lower c || is_upper c ||
  (if decide (c ∈ list_ascii_of_string "-_.!~*'()") then true else false).

Definition hex_digit (n : N) : ascii :=
  if (n <? 10)%N then ascii_of_N (48 + n) else ascii_of_N (65 + n - 10).

Fixpoint encodeURIComponent (s : string) : string :=
  match s with
  | EmptyString => EmptyString
  | String c s' =>
      let n := N_of_ascii c in
      (if is_unreserved c then String c EmptyString
       else String "%" (String (hex_digit (n / 16)) (String (hex_digit (n mod 16)) EmptyString)))
      +:+ encodeURIComponent s'
  end.

(** ** JavaScript values *)

(** What was thrown, or the reason a promise was rejected with. *)
Record js_error := { name : string; message : string }.

Definition TypeError (msg : string) : js_error :=
  {| name := "TypeError"; message := msg |}.

#[global] Instance Exc_ret : MRet (sum js_error) := λ A a, inr a.
#[global] Instance Exc_bind : MBind (sum js_error) := λ A B f m,
  match m with inl e => inl e | inr a => f a end.

(** A value of [req.query]. *)
Inductive qval :=
| QStr (s : string)
| QArr (first second : string) (rest : list string).

(** The conversion to a string that template literals, [RegExp.test],
    [parseInt] and [encodeURIComponent] apply to their argument; [None] is
    [undefined]. *)
Definition ToString (v : option qval) : string :=
  match v with
  | None => "undefined"
  | Some (QStr s) => s
  | Some (QArr a b rest) => String.concat "," (a :: b :: rest)
  end.

(** [`${s}`] for a string or [undefined] *)
Definition String_template (s : option string) : string := default "undefined" s.

(** [!v] is [negb (truthy v)]. *)
Definition truthy (v : option qval) : bool :=
  match v with
  | None => false
  | Some (QStr s) => negb (bool_decide (s = EmptyString))
  | Some (QArr _ _ _) => true
  end.

(** [v.slice(start, end)] as it is used: converted to a string at once. *)
Definition slice (v : option qval) (start : Z) (end_ : option Z) : js_error + string :=
  match v with
  | None => inl (TypeError "Cannot read properties of undefined (reading 'slice')")
  | Some (QStr s) => inr (string_slice s start end_)
  | Some (QArr a b rest) => inr (String.concat "," (array_slice (a :: b :: rest) start end_))
  end.

(** [v?.toUpperCase()]: an array has no such method. *)
Definition optional_toUpperCase (v : option qval) : js_error + option string :=
  match v with
  | None => inr None
  | Some (QStr s) => inr (Some (toUpperCase s))
  | Some (QArr _ _ _) => inl (TypeError "semester?.toUpperCase is not a function")
  end.

(** *** JSON *)

Inductive json :=
| JNull
| JBool (b : bool)
| JNumber (text : string)
| JStr (s : string)
| JArr (l : list json)
| JObj (m : gmap string json).

(** The number of the integer [z]. *)
Definition JNum (z : Z) : json := JNumber (Number_toString z).

(** Zero and minus zero both print as 0, and they are the falsy numbers of
    JSON. *)
Definition json_truthy (v : option json) : bool :=
  match v with
  | None | Some JNull => false
  | Some (JBool b) => b
  | Some (JNumber t) => negb (bool_decide (t = "0"))
  | Some (JStr s) => negb (bool_decide (s = EmptyString))
  | Some (JArr _) | Some (JObj _) => true
  end.

(** [Array.prototype.join] with a comma, [f] giving the string of an
    element. *)
Fixpoint join {A} (f : A → js_error + string) (l : list A) : js_error + string :=
  match l with
  | [] => inr EmptyString
  | x :: l' =>
      first ← f x;
      match l' with
      | [] => inr first
      | _ => rest ← join f l'; inr (first +:+ "," +:+ rest)
      end
  end.

(** The conversion of a value to a string.  An array joins the strings of
    its elements with commas, the one of [null] being empty.  An object
    that was parsed from JSON is converted by the [toString] that it
    inherits, unless it has a property of that name of its own: this is no
    function, the inherited [valueOf] returns the object itself, and the
    conversion throws. *)
Fixpoint json_ToString (v : json) : js_error + string :=
  match v with
  | JNull => inr "null"
  | JBool b => inr (if b then "true" else "false")
  | JNumber t => inr t
  | JStr s => inr s
  | JArr l =>
      join (λ x, match x with JNull => inr EmptyString | _ => json_ToString x end) l
  | JObj m =>
      if bool_decide (is_Some (m !! "toString")) then
        inl (TypeError "Cannot convert object to primitive value")
      else inr "[object Object]"
  end.

(** [`${v}`] *)
Definition template (v : option json) : js_error + string :=
  match v with
  | None => inr "undefined"
  | Some j => json_ToString j
  end.

(** [v[k]] for a name [k] that the prototypes of strings, numbers, booleans,
    arrays and objects do not define, as is the case of [status], [message]
    and [data]; reading a property of [null] throws. *)
Definition get_prop (v : json) (k : string) : js_error + option json :=
  match v with
  | JNull => inl (TypeError ("Cannot read properties of null (reading '" +:+ k +:+ "')"))
  | JObj m => inr (m !! k)
  | _ => inr None
  end.

(** [v === n] and [v !== n] for a number literal [n]. *)
Definition strict_eq (v : option json) (n : Z) : bool :=
  match v with
  | Some (JNumber t) => bool_decide (t = Number_toString n)
  | _ => false
  end.

(** [delete o.k] in strict mode, for a name [k] that is not [length] or an
    index: on an object the property goes, on any other value but [null]
    and [undefined] nothing happens. *)
Definition delete_prop (o : option json) (k : string) : js_error + option json :=
  match o with
  | None => inl (TypeError ("Cannot convert undefined or null to object"))
  | Some JNull => inl (TypeError ("Cannot convert undefined or null to object"))
  | Some (JObj m) => inr (Some (JObj (delete k m)))
  | Some v => inr (Some v)
  end.

(** ** Asynchronous computations *)

(** What the handler passes to [fetch]: the URL, the delay after which the
    timer aborts the request through [controller.signal], and the headers. *)
Record fetch_request := {
  url : string;
  abort_after : Z;
  request_headers : list (string * string)
}.

(** What the upstream server answers: the HTTP status, a code of three
    digits, and what [json()] makes of the body. *)
Record api_response := {
  http_status : Z;
  body_json : js_error + json
}.

(** [apiResponse.ok] *)
Definition ok (r : api_response) : bool :=
  (200 <=? http_status r) && (http_status r <=? 299).

(** A run from a log of the requests issued to a result and the new log. *)
Definition Async (A : Type) : Type :=
  list fetch_request → (js_error + A) * list fetch_request.

#[global] Instance Async_ret : MRet Async := λ A a log, (inr a, log).

#[global] Instance Async_bind : MBind Async := λ A B f m log,
  match m log with
  | (inl e, log') => (inl e, log')
  | (inr a, log') => f a log'
  end.

Definition throw {A} (e : js_error) : Async A := λ log, (inl e, log).

(** [try { m } catch (error) { h error }] *)
Definition try_catch {A} (m : Async A) (h : js_error → Async A) : Async A :=
  λ log, match m log with
         | (inl e, log') => h e log'
         | r => r
         end.

(** A synchronous step that returns or throws. *)
Definition lift {A} (r : js_error + A) : Async A := λ log, (r, log).

(** How a promise settled. *)
Inductive settled (A : Type) :=
| fulfilled (value : A)
| rejected (reason : js_error).
Arguments fulfilled {A} value.
Arguments rejected {A} reason.

(** [Promise.allSettled]: the promises were started in the order of the
    list, and their outcomes are delivered in that order. *)
Fixpoint allSettled {A} (promises : list (Async A)) : Async (list (settled A)) :=
  match promises with
  | [] => mret []
  | p :: ps => λ log,
      let '(r, log') := p log in
      let s := match r with inl e => rejected e | inr v => fulfilled v end in
      (rest ← allSettled ps; mret (s :: rest)) log'
  end.

(** ** Configuration *)

Definition RESULT_API_BASE_URL : string :=
  "https://beu-bih.ac.in/backend/v1/result/get-result".
Definition FETCH_TIMEOUT : Z := 8000.
Definition BATCH_SIZE : Z := 5.

(** ** The objects built by the code

    [fetchSingleResult] returns, and the handler puts in its answer, object
    literals with the fields [status] and [regNo] and, or not, [reason] and
    [data]; a field that is [None] is absent. *)
Record status_object := {
  status : string;
  regNo : option string;
  reason : option json;
  data : option json
}.

(** [a || b] on values *)
Definition or_else (a : option json) (b : json) : option json :=
  if json_truthy a then a else Some b.

(** ** Requests and responses *)

Record query := {
  reg_no : option qval;
  year : option qval;
  semester : option qval;
  exam_held : option qval
}.

Record request := { method : string; req_query : query }.

Inductive header_value :=
| HString (s : string)
| HArray (l : list string).

Inductive body :=
| Ended                                               (* end() *)
| ErrorJson (error : string) (details : option string) (* json({error, details}) *)
| BatchJson (batchResponse : list status_object).     (* json(batchResponse) *)

Record response := {
  statusCode : Z;
  headers : gmap string header_value;
  sent : body
}.

(** [res.setHeader(name, value)] *)
Definition setHeader (k : string) (v : header_value)
    (res : gmap string header_value) : gmap string header_value := <[k := v]> res.

(** ** Validation *)

Definition romanMap : gmap string Z :=
  list_to_map [("I", 1); ("II", 2); ("III", 3); ("IV", 4);
               ("V", 5); ("VI", 6); ("VII", 7); ("VIII", 8)].

(** The names that an object literal inherits from [Object.prototype]; the
    value of each is a function or an object. *)
Definition Object_prototype : list string :=
  ["constructor"; "hasOwnProperty"; "isPrototypeOf"; "propertyIsEnumerable";
   "toLocaleString"; "toString"; "valueOf"; "__defineGetter__";
   "__defineSetter__"; "__lookupGetter__"; "__lookupSetter__"; "__proto__"].

(** [!normalizedSemester || !romanMap[normalizedSemester]] *)
Definition semester_rejected (normalizedSemester : option string) : bool :=
  match normalizedSemester with
  | None => true
  | Some k =>
      bool_decide (k = EmptyString) ||
      negb (match romanMap !! k with
            | Some n => negb (n =? 0)
            | None => bool_decide (k ∈ Object_prototype)
            end)
  end.

(** The locals that the fetch phase reads. *)
Record validated := {
  prefix : string;
  startNum : Z;
  normalizedSemester : option string
}.

Definition dq : string := String "034" EmptyString.

(** [result.js], from the reading of [req.query] to the test of [startNum]:
    an error thrown, the message of a 400 answer, or the locals. *)
Definition validate (q : query) : js_error + (string + validated) :=
  if negb (truthy (reg_no q)) || negb (regex_test Digit 11 (ToString (reg_no q))) then
    inr (inl ("Invalid parameter. Use " +:+ dq +:+ "reg_no" +:+ dq +:+ " with a full 11-digit number."))
  else if negb (truthy (year q)) || isNaN (parseInt (ToString (year q)) None) then
    inr (inl ("Missing or invalid " +:+ dq +:+ "year" +:+ dq +:+ " parameter."))
  else
    normalizedSemester ← optional_toUpperCase (semester q);
    if semester_rejected normalizedSemester then
      inr (inl ("Missing or invalid " +:+ dq +:+ "semester" +:+ dq +:+ " parameter (use Roman numerals I-VIII)."))
    else if negb (truthy (exam_held q)) then
      inr (inl ("Missing " +:+ dq +:+ "exam_held" +:+ dq +:+ " parameter."))
    else
      prefix ← slice (reg_no q) 0 (Some (-3));
      last ← slice (reg_no q) (-3) None;
      match parseInt last (Some 10) with
      | None => inr (inl "Could not parse starting number from reg_no.")
      | Some startNum =>
          inr (inr {| prefix := prefix; startNum := startNum;
                      normalizedSemester := normalizedSemester |})
      end.

(** The same lines of [part_000], which collects the message in a variable
    and tests [reg_no] against [/^d{11}$/]. *)
Definition validate_part_000 (q : query) : js_error + (string + validated) :=
  let validationError : option string := None in
  let validationError :=
    if negb (truthy (reg_no q)) || negb (regex_test (Literal "d") 11 (ToString (reg_no q))) then
      Some ("Invalid parameter. Use " +:+ dq +:+ "reg_no" +:+ dq +:+ " with full 11-digit number.")
    else if negb (truthy (year q)) || isNaN (parseInt (ToString (year q)) None) then
      Some ("Missing or invalid " +:+ dq +:+ "year" +:+ dq +:+ ".")
    else validationError in
  normalizedSemester ← optional_toUpperCase (semester q);
  let validationError :=
    if semester_rejected normalizedSemester then
      Some ("Missing or invalid " +:+ dq +:+ "semester" +:+ dq +:+ " (Roman I-VIII).")
    else if negb (truthy (exam_held q)) then
      Some ("Missing " +:+ dq +:+ "exam_held" +:+ dq +:+ " parameter.")
    else validationError in
  match validationError with
  | Some error => inr (inl error)
  | None =>
      prefix ← slice (reg_no q) 0 (Some (-3));
      last ← slice (reg_no q) (-3) None;
      match parseInt last (Some 10) with
      | None => inr (inl "Failed to parse number from reg_no.")
      | Some startNum =>
          inr (inr {| prefix := prefix; startNum := startNum;
                      normalizedSemester := normalizedSemester |})
      end
  end.

(** ** The batch *)

(** The body of the loop: the suffix for [i]. *)
Definition suffix (i : Z) : string :=
  if 900 <=? i then Number_toString i else padStart 3 "0" (Number_toString i).

(** [for (let i = startNum; i <= endNum; i++) registrationNumbers.push(...)] *)
Definition registrationNumbers (prefix : string) (startNum : Z) : list string :=
  let endNum := startNum + BATCH_SIZE - 1 in
  (λ i, prefix +:+ suffix i) <$> seqZ startNum (endNum + 1 - startNum).

(** The function mapped over [resultsSettled]. *)
Definition shape (registrationNumbers : list string) (index : nat)
    (result : settled status_object) : js_error + status_object :=
  let attempted := registrationNumbers !! index in
  match result with
  | fulfilled val =>
      if bool_decide (status val = "success") then
        data1 ← delete_prop (data val) "father_name";
        data2 ← delete_prop data1 "mother_name";
        mret {| regNo := regNo val; status := "success"; data := data2; reason := None |}
      else if bool_decide (status val = "not_found") then
        mret {| regNo := regNo val; status := "Record not found";
                data := None; reason := None |}
      else
        mret {| regNo := regNo val; status := "Error fetching result (temporary)";
                reason := or_else (reason val) (JStr "Unknown error"); data := None |}
  | rejected _ =>
      mret {| regNo := attempted; status := "Error fetching result (temporary)";
              reason := Some (JStr "Promise rejected"); data := None |}
  end.

(** [resultsSettled.map(shape)]: the elements in turn, from [index] on. *)
Fixpoint map_shape (registrationNumbers : list string) (index : nat)
    (results : list (settled status_object)) : js_error + list status_object :=
  match results with
  | [] => mret []
  | result :: results' =>
      item ← shape registrationNumbers index result;
      items ← map_shape registrationNumbers (S index) results';
      mret (item :: items)
  end.

Section Upstream.

(** The upstream server. *)
Variable upstream : fetch_request → js_error + api_response.

(** [await fetch(url, {signal, headers})] *)
Definition fetch (r : fetch_request) : Async api_response :=
  λ log, (upstream r, (log ++ [r])%list).

(** ** fetchSingleResult *)

Definition fetchSingleResult (regNo : string) (year : option qval)
    (semesterRoman : option string) (encodedExamHeld : string) : Async status_object :=
  let targetUrl :=
    RESULT_API_BASE_URL +:+ "?year=" +:+ ToString year +:+ "&redg_no=" +:+ regNo
    +:+ "&semester=" +:+ String_template semesterRoman
    +:+ "&exam_held=" +:+ encodedExamHeld in
  try_catch
    (apiResponse ← fetch {|
       url := targetUrl;
       abort_after := FETCH_TIMEOUT;
       request_headers :=
         [("Accept", "application/json, text/plain, */*");
          ("User-Agent", "Mozilla/5.0 (Windows NT 10.0; Win64; x64) AppleWebKit/537.36 (KHTML, like Gecko) Chrome/91.0.4472.124 Safari/537.36");
          ("Referer", "https://beu-bih.ac.in/result-two/some-exam?semester="
                      +:+ String_template semesterRoman
                      +:+ "&session=" +:+ ToString year +:+ "&exam_held=" +:+ encodedExamHeld)]
     |};
     if negb (ok apiResponse) then
       mret {| status := "error"; regNo := Some regNo;
               reason := Some (JStr ("BEU API Error: HTTP " +:+ Number_toString (http_status apiResponse)));
               data := None |}
     else
       jsonData ← lift (body_json apiResponse);
       jsonData_status ← lift (get_prop jsonData "status");
       if strict_eq jsonData_status 404 then
         jsonData_message ← lift (get_prop jsonData "message");
         mret {| status := "not_found"; regNo := Some regNo;
                 reason := or_else jsonData_message (JStr "Record not found.");
                 data := None |}
       else
         jsonData_data ← lift (get_prop jsonData "data");
         if negb (strict_eq jsonData_status 200) || negb (json_truthy jsonData_data) then
           jsonData_message ← lift (get_prop jsonData "message");
           detail ← lift (if json_truthy jsonData_message then template jsonData_message
                          else status_text ← template jsonData_status;
                               mret ("Status " +:+ status_text));
           mret {| status := "error"; regNo := Some regNo;
                   reason := Some (JStr ("BEU API Data Error: " +:+ detail));
                   data := None |}
         else
           mret {| status := "success"; regNo := Some regNo;
                   reason := None; data := jsonData_data |})
    (λ error,
       let reason := if bool_decide (name error = "AbortError") then "Request Timed Out"
                     else "Fetch Error: " +:+ message error in
       mret {| status := "error"; regNo := Some regNo;
               reason := Some (JStr reason); data := None |}).

(** ** The handlers *)

Definition cors : gmap string header_value :=
  setHeader "Access-Control-Allow-Headers" (HString "Content-Type")
    (setHeader "Access-Control-Allow-Methods" (HString "GET, OPTIONS")
       (setHeader "Access-Control-Allow-Origin" (HString "*") ∅)).

(** The fetch phase, the same in both files. *)
Definition fetch_phase (res : gmap string header_value) (q : query)
    (v : validated) : Async response :=
  let encodedExamHeld := encodeURIComponent (ToString (exam_held q)) in
  let registrationNumbers := registrationNumbers (prefix v) (startNum v) in
  try_catch
    (let fetchPromises :=
       map (λ rn, fetchSingleResult rn (year q) (normalizedSemester v) encodedExamHeld)
           registrationNumbers in
     resultsSettled ← allSettled fetchPromises;
     batchResponse ← lift (map_shape registrationNumbers 0 resultsSettled);
     mret {| statusCode := 200; headers := res; sent := BatchJson batchResponse |})
    (λ err,
       mret {| statusCode := 500; headers := res;
               sent := ErrorJson "Server error processing the batch." (Some (message err)) |}).

(** The handler, given the validation of its file. *)
Definition handler_with (validate : query → js_error + (string + validated))
    (req : request) : Async response :=
  let res := cors in
  if bool_decide (method req = "OPTIONS") then
    mret {| statusCode := 204; headers := res; sent := Ended |}
  else if negb (bool_decide (method req = "GET")) then
    let res := setHeader "Allow" (HArray ["GET"; "OPTIONS"]) res in
    mret {| statusCode := 405; headers := res;
            sent := ErrorJson ("Method " +:+ method req +:+ " Not Allowed") None |}
  else
    checked ← lift (validate (req_query req));
    match checked with
    | inl error => mret {| statusCode := 400; headers := res; sent := ErrorJson error None |}
    | inr v => fetch_phase res (req_query req) v
    end.

(** [api/regular/result.js] *)
Definition handler : request → Async response := handler_with validate.

(** [part_000] *)
Definition handler_part_000 : request → Async response := handler_with validate_part_000.

End Upstream.


(** * Properties *)

(** ** Strings and digits *)

Lemma string_length_app (a b : string) :
  String.length (a +:+ b) = (String.length a + String.length b)%nat.
Proof. induction a as [|c a IH]; simpl; [done | by rewrite IH]. Qed.

Lemma list_ascii_app (a b : string) :
  list_ascii_of_string (a +:+ b) = (list_ascii_of_string a ++ list_ascii_of_string b)%list.
Proof. induction a as [|c a IH]; simpl; [done | by rewrite IH]. Qed.

Lemma list_ascii_length (s : string) :
  length (list_ascii_of_string s) = String.length s.
Proof. induction s as [|c s IH]; simpl; [done | by rewrite IH]. Qed.

(** The ten characters that [\d] matches. *)
Lemma is_digit_cases (c : ascii) :
  is_digit c = true →
  c ∈ list_ascii_of_string "0123456789".
Proof.
  destruct c as [[] [] [] [] [] [] [] []]; vm_compute; intros H;
    try discriminate H; clear H; simpl; set_solver.
Qed.

(** A string joined from two elements or more holds a comma, so no array
    passes either pattern. *)
Lemma regex_test_array (a : atom) (n : nat) (x y : string) (rest : list string) :
  atom_matches a "," = false →
  regex_test a n (ToString (Some (QArr x y rest))) = false.
Proof.
  intros Hcomma. unfold regex_test, ToString.
  change (String.concat "," (x :: y :: rest))
    with (x +:+ "," +:+ String.concat "," (y :: rest)).
  rewrite !list_ascii_app, !forallb_app. simpl. rewrite Hcomma. simpl.
  by rewrite !andb_false_r.
Qed.

(** A string of eleven characters, spelled out. *)
Lemma length_11_inv (s : string) :
  String.length s = 11%nat →
  ∃ c1 c2 c3 c4 c5 c6 c7 c8 c9 c10 c11,
    s = String c1 (String c2 (String c3 (String c4 (String c5 (String c6
          (String c7 (String c8 (String c9 (String c10 (String c11 EmptyString)))))))))).
Proof.
  intros H.
  do 11 (destruct s as [|? s]; [discriminate H|]).
  destruct s; [|discriminate H]. by repeat eexists.
Qed.

(** The number that a string of decimal digits writes. *)
Definition decimal_value (s : string) : Z :=
  fold_left (λ acc c, acc * 10 + (Z.of_N (N_of_ascii c) - 48)) (list_ascii_of_string s) 0.

Lemma parseInt_three_digits (c1 c2 c3 : ascii) :
  is_digit c1 = true → is_digit c2 = true → is_digit c3 = true →
  let last := String c1 (String c2 (String c3 EmptyString)) in
  parseInt last (Some 10) = Some (decimal_value last) ∧ 0 ≤ decimal_value last ≤ 999.
Proof.
  intros H1%is_digit_cases H2%is_digit_cases H3%is_digit_cases.
  simpl in H1, H2, H3.
  set_unfold.
  destruct H1 as [->|[->|[->|[->|[->|[->|[->|[->|[->|[->|[]]]]]]]]]]];
  destruct H2 as [->|[->|[->|[->|[->|[->|[->|[->|[->|[->|[]]]]]]]]]]];
  destruct H3 as [->|[->|[->|[->|[->|[->|[->|[->|[->|[->|[]]]]]]]]]]];
  vm_compute; (split; [reflexivity | split; discriminate]).
Qed.

(** ** Validation *)

(** The conditions of validity, as the specification words them. *)

Definition decimal_digits : list ascii := list_ascii_of_string "0123456789".

Definition roman_numerals : list string :=
  ["I"; "II"; "III"; "IV"; "V"; "VI"; "VII"; "VIII"].

(** [reg_no] is a string of exactly 11 decimal digits. *)
Definition eleven_decimal_digits (v : option qval) : bool :=
  match v with
  | Some (QStr s) =>
      bool_decide (String.length s = 11%nat) &&
      bool_decide (Forall (λ c, c ∈ decimal_digits) (list_ascii_of_string s))
  | _ => false
  end.

(** [year] is present and parses as an integer. *)
Definition parses_as_integer (v : option qval) : bool :=
  match v with
  | Some _ => bool_decide (is_Some (parseInt (ToString v) None))
  | None => false
  end.

(** [semester], uppercased, is one of the Roman numerals I to VIII. *)
Definition roman_semester (v : option qval) : bool :=
  match v with
  | Some (QStr s) => bool_decide (toUpperCase s ∈ roman_numerals)
  | _ => false
  end.

(** [exam_held] is missing or empty. *)
Definition missing_or_empty (v : option qval) : bool :=
  match v with
  | None | Some (QStr EmptyString) => true
  | _ => false
  end.

Definition valid_query (q : query) : bool :=
  eleven_decimal_digits (reg_no q) && parses_as_integer (year q) &&
  roman_semester (semester q) && negb (missing_or_empty (exam_held q)).

(** A request passes validation when the handler of [result.js] is past its
    last 400 answer. *)
Definition passes_validation (req : request) : bool :=
  bool_decide (method req = "GET") &&
  match validate (req_query req) with
  | inr (inr _) => true
  | _ => false
  end.

Lemma is_digit_decimal (c : ascii) : is_digit c = true ↔ c ∈ decimal_digits.
Proof.
  split; [apply is_digit_cases|].
  unfold decimal_digits. simpl. set_unfold. intros H.
  repeat (destruct H as [->|H]; [reflexivity|]). destruct H.
Qed.

Lemma regex_digits_spec (s : string) :
  regex_test Digit 11 s = eleven_decimal_digits (Some (QStr s)).
Proof.
  unfold regex_test, eleven_decimal_digits. f_equal.
  - destruct (Nat.eqb_spec (String.length s) 11) as [E|E];
      [by rewrite bool_decide_eq_true_2 | by rewrite bool_decide_eq_false_2].
  - apply eq_true_iff_eq. rewrite forallb_forall, bool_decide_eq_true, Forall_forall.
    simpl. setoid_rewrite <- is_digit_decimal. by setoid_rewrite list_elem_of_In.
Qed.

Lemma upper_char_not_lower (c : ascii) : is_lower (upper_char c) = false.
Proof. by destruct c as [[] [] [] [] [] [] [] []]. Qed.

Lemma toUpperCase_no_lower (s : string) :
  forallb (λ c, negb (is_lower c)) (list_ascii_of_string (toUpperCase s)) = true.
Proof.
  induction s as [|c s IH]; simpl; [done|].
  by rewrite upper_char_not_lower, IH.
Qed.

(** No uppercased string names a property of [Object.prototype]. *)
Lemma toUpperCase_not_inherited (s : string) : toUpperCase s ∉ Object_prototype.
Proof.
  intros H. pose proof (toUpperCase_no_lower s) as Hs.
  unfold Object_prototype in H. set_unfold.
  repeat (destruct H as [H|H]; [rewrite H in Hs; discriminate Hs|]). destruct H.
Qed.

Lemma romanMap_lookup (k : string) :
  match romanMap !! k with
  | Some n => k ∈ roman_numerals ∧ n ≠ 0
  | None => k ∉ roman_numerals
  end.
Proof.
  destruct (romanMap !! k) as [n|] eqn:Hk.
  - apply elem_of_list_to_map in Hk; [|by apply (bool_decide_unpack _)].
    set_unfold. unfold roman_numerals. set_unfold.
    repeat (destruct Hk as [Hk|Hk]; [apply pair_equal_spec in Hk as [-> ->]; split; [tauto | done]|]).
    destruct Hk.
  - by apply not_elem_of_list_to_map in Hk.
Qed.

Lemma semester_rejected_spec (s : string) :
  semester_rejected (Some (toUpperCase s)) = negb (roman_semester (Some (QStr s))).
Proof.
  unfold semester_rejected, roman_semester.
  pose proof (romanMap_lookup (toUpperCase s)) as Hk.
  destruct (romanMap !! toUpperCase s) as [n|].
  - destruct Hk as [Hin Hn].
    rewrite (bool_decide_eq_true_2 _ Hin).
    rewrite bool_decide_eq_false_2; [|intros E; rewrite E in Hin; revert Hin; by apply (bool_decide_unpack _)].
    simpl. destruct (Z.eqb_spec n 0); [done|done].
  - rewrite (bool_decide_eq_false_2 _ (toUpperCase_not_inherited s)).
    rewrite (bool_decide_eq_false_2 _ Hk). simpl. by rewrite orb_true_r.
Qed.

Lemma reg_no_check (v : option qval) :
  negb (truthy v) || negb (regex_test Digit 11 (ToString v))
  = negb (eleven_decimal_digits v).
Proof.
  destruct v as [[s|a b rest]|]; [| |done].
  - change (ToString (Some (QStr s))) with s. rewrite regex_digits_spec.
    by destruct s.
  - by rewrite regex_test_array.
Qed.

Lemma year_check (v : option qval) :
  negb (truthy v) || isNaN (parseInt (ToString v) None) = negb (parses_as_integer v).
Proof.
  destruct v as [[s|a b rest]|]; [|done|done].
  by destruct s.
Qed.

Lemma exam_held_check (v : option qval) : negb (truthy v) = missing_or_empty v.
Proof.
  destruct v as [[s|a b rest]|]; [|done|done].
  by destruct s.
Qed.

(** The slices of a validated [reg_no], and the number parsed. *)
Lemma slices_of_valid (s : string) :
  eleven_decimal_digits (Some (QStr s)) = true →
  slice (Some (QStr s)) 0 (Some (-3)) = inr (substring 0 8 s) ∧
  slice (Some (QStr s)) (-3) None = inr (substring 8 3 s) ∧
  parseInt (substring 8 3 s) (Some 10) = Some (decimal_value (substring 8 3 s)) ∧
  0 ≤ decimal_value (substring 8 3 s) ≤ 999 ∧
  String.length (substring 0 8 s) = 8%nat.
Proof.
  rewrite <- regex_digits_spec. unfold regex_test.
  intros [Hlen Hdig]%andb_prop. apply Nat.eqb_eq in Hlen.
  destruct (length_11_inv s Hlen)
    as (c1 & c2 & c3 & c4 & c5 & c6 & c7 & c8 & c9 & c10 & c11 & ->).
  simpl in Hdig.
  repeat (apply andb_prop in Hdig as [? Hdig]).
  split; [reflexivity|]. split; [reflexivity|].
  change (substring 8 3 _) with (String c9 (String c10 (String c11 EmptyString))).
  destruct (parseInt_three_digits c9 c10 c11) as [Hp Hr]; [done..|].
  split; [exact Hp|]. split; [exact Hr|]. reflexivity.
Qed.

(** What [validate] answers, case by case: it throws only when [semester]
    is an array and [reg_no] and [year] are valid; it rejects only invalid
    queries; and it accepts only valid ones, with the locals as stated. *)
Lemma validate_cases (q : query) :
  match validate q with
  | inl e =>
      (∃ a b rest, semester q = Some (QArr a b rest)) ∧
      eleven_decimal_digits (reg_no q) = true ∧ parses_as_integer (year q) = true
  | inr (inl _) => valid_query q = false
  | inr (inr v) =>
      valid_query q = true ∧
      ∃ s sem, reg_no q = Some (QStr s) ∧ semester q = Some (QStr sem) ∧
        prefix v = substring 0 8 s ∧ String.length (prefix v) = 8%nat ∧
        startNum v = decimal_value (substring 8 3 s) ∧ 0 ≤ startNum v ≤ 999 ∧
        normalizedSemester v = Some (toUpperCase sem) ∧
        toUpperCase sem ∈ roman_numerals
  end.
Proof.
  unfold validate, valid_query.
  rewrite reg_no_check, year_check, exam_held_check.
  destruct (eleven_decimal_digits (reg_no q)) eqn:Hreg; [|done].
  destruct (parses_as_integer (year q)) eqn:Hyear; [|done].
  simpl negb. cbv iota.
  destruct (semester q) as [[sem|a b rest]|] eqn:Hsem; [| |done].
  - simpl optional_toUpperCase. unfold mbind, Exc_bind at 1.
    rewrite semester_rejected_spec.
    destruct (roman_semester (Some (QStr sem))) eqn:Hroman; [|done].
    simpl negb. cbv iota.
    destruct (missing_or_empty (exam_held q)) eqn:Hexam; [done|].
    destruct (reg_no q) as [[s|? ? ?]|] eqn:Hs; [|done|done].
    destruct (slices_of_valid s Hreg) as (-> & -> & Hp & Hr & Hl).
    unfold mbind, Exc_bind. rewrite Hp.
    split; [done|]. exists s, sem. simpl.
    repeat split; try done; try apply Hr.
    by apply bool_decide_eq_true in Hroman.
  - simpl. eauto 10.
Qed.

(** ** One fetch *)

(** The request that [fetchSingleResult] passes to [fetch]. *)
Definition request_for (regNo : string) (year : option qval)
    (semesterRoman : option string) (encodedExamHeld : string) : fetch_request :=
  {| url := RESULT_API_BASE_URL +:+ "?year=" +:+ ToString year +:+ "&redg_no=" +:+ regNo
            +:+ "&semester=" +:+ String_template semesterRoman
            +:+ "&exam_held=" +:+ encodedExamHeld;
     abort_after := FETCH_TIMEOUT;
     request_headers :=
       [("Accept", "application/json, text/plain, */*");
        ("User-Agent", "Mozilla/5.0 (Windows NT 10.0; Win64; x64) AppleWebKit/537.36 (KHTML, like Gecko) Chrome/91.0.4472.124 Safari/537.36");
        ("Referer", "https://beu-bih.ac.in/result-two/some-exam?semester="
                    +:+ String_template semesterRoman
                    +:+ "&session=" +:+ ToString year +:+ "&exam_held=" +:+ encodedExamHeld)] |}.

(** The objects that [fetchSingleResult] can return for [rn]. *)
Definition settles_well (rn : string) (val : status_object) : Prop :=
  regNo val = Some rn ∧
  ((status val = "success" ∧ json_truthy (data val) = true ∧ reason val = None) ∨
   (status val = "not_found" ∧ data val = None) ∨
   (status val = "error" ∧ data val = None ∧ ∃ r, reason val = Some (JStr r))).

Section Runs.

Variable upstream : fetch_request → js_error + api_response.
Variables (year : option qval) (semesterRoman : option string) (encodedExamHeld : string).

(** [fetchSingleResult] issues its one request, returns, and what it returns
    depends on the answer to that request only. *)
Lemma fetchSingleResult_run (rn : string) (log : list fetch_request) :
  ∃ val,
    fetchSingleResult upstream rn year semesterRoman encodedExamHeld log
    = (inr val, (log ++ [request_for rn year semesterRoman encodedExamHeld])%list) ∧
    settles_well rn val ∧
    (fetchSingleResult upstream rn year semesterRoman encodedExamHeld []).1 = inr val.
Proof.
  unfold fetchSingleResult, try_catch, mbind, Async_bind, fetch, lift, mret, Async_ret.
  fold (request_for rn year semesterRoman encodedExamHeld).
  unfold settles_well.
  destruct (upstream _) as [e|resp]; [eexists; split_and!; simpl; eauto 10|].
  destruct (ok resp); simpl; [|eexists; split_and!; simpl; eauto 10].
  destruct (body_json resp) as [e|j]; [eexists; split_and!; simpl; eauto 10|].
  destruct (get_prop j "status") as [e|st] eqn:Hst; [eexists; split_and!; simpl; eauto 10|].
  assert (∀ k, ∃ p, get_prop j k = inr p) as Hget.
  { intros k. destruct j; simpl in *; try discriminate Hst; eauto. }
  destruct (strict_eq st 404).
  - destruct (Hget "message") as [p ->]. eexists; split_and!; simpl; eauto 10.
  - destruct (Hget "data") as [d ->]. destruct (Hget "message") as [p ->].
    destruct (negb (strict_eq st 200) || negb (json_truthy d)) eqn:Hbad.
    + match goal with
      | |- context [if json_truthy p then ?a else ?b] =>
          destruct (if json_truthy p then a else b) as [e|detail]
      end; simpl; eexists; split_and!; simpl; eauto 10.
    + apply orb_false_elim in Hbad as [_ Hd%negb_false_iff].
      simpl. eexists; split_and!; simpl; eauto 10.
Qed.

(** The upstream answer of a successful fetch: an HTTP status in 200-299
    and a JSON object with [status] 200 and the object [fields] as [data]. *)
Definition upstream_success (answer : js_error + api_response)
    (fields : gmap string json) : Prop :=
  ∃ resp top,
    answer = inr resp ∧ ok resp = true ∧ body_json resp = inr (JObj top) ∧
    top !! "status" = Some (JNum 200) ∧ top !! "data" = Some (JObj fields).

Lemma fetchSingleResult_success (rn : string) (fields : gmap string json) :
  upstream_success (upstream (request_for rn year semesterRoman encodedExamHeld)) fields →
  (fetchSingleResult upstream rn year semesterRoman encodedExamHeld []).1
  = inr {| status := "success"; regNo := Some rn; reason := None;
           data := Some (JObj fields) |}.
Proof.
  intros (resp & top & Hup & Hok & Hbody & Hstatus & Hdata).
  unfold fetchSingleResult, try_catch, mbind, Async_bind, fetch, lift, mret, Async_ret.
  fold (request_for rn year semesterRoman encodedExamHeld).
  rewrite Hup, Hok. simpl. rewrite Hbody. simpl. rewrite Hstatus, Hdata. reflexivity.
Qed.

(** The promises of the batch settle in order, all fulfilled, and the log
    grows by one request per registration number. *)
Lemma allSettled_batch (rns : list string) (log : list fetch_request) :
  ∃ vals,
    allSettled
      (map (λ rn, fetchSingleResult upstream rn year semesterRoman encodedExamHeld) rns) log
    = (inr (fulfilled <$> vals),
       (log ++ map (λ rn, request_for rn year semesterRoman encodedExamHeld) rns)%list) ∧
    Forall2 (λ rn val,
      settles_well rn val ∧
      (fetchSingleResult upstream rn year semesterRoman encodedExamHeld []).1 = inr val)
      rns vals.
Proof.
  revert log. induction rns as [|rn rns IH]; intros log.
  - exists []. simpl. rewrite app_nil_r. by split.
  - destruct (fetchSingleResult_run rn log) as (val & Hrun & Hwell & Hval).
    destruct (IH (log ++ [request_for rn year semesterRoman encodedExamHeld])%list)
      as (vals & Hrest & Hall).
    exists (val :: vals). split; [|by constructor].
    cbn [map allSettled]. rewrite Hrun.
    unfold mbind, Async_bind. rewrite Hrest. cbn. by rewrite <- app_assoc.
Qed.

End Runs.

(** ** The batch *)

(** The answer for a fulfilled promise does not read [registrationNumbers]. *)
Lemma shape_fulfilled_irrel (rns : list string) (index : nat) (val : status_object) :
  shape rns index (fulfilled val) = shape [] 0 (fulfilled val).
Proof. reflexivity. Qed.

(** No object that [fetchSingleResult] returns makes [shape] throw. *)
Lemma shape_returns (rn : string) (val : status_object) :
  settles_well rn val → ∃ item, shape [] 0 (fulfilled val) = inr item.
Proof.
  intros [_ [(Hs & Hd & _)|[(Hs & _)|(Hs & _)]]]; unfold shape; rewrite Hs; simpl; eauto.
  destruct (data val) as [[]|]; simpl in *; try discriminate Hd; eauto.
Qed.

Lemma map_shape_fulfilled (rns rns' : list string) (index : nat)
    (vals : list status_object) :
  Forall2 settles_well rns' vals →
  ∃ items,
    map_shape rns index (fulfilled <$> vals) = inr items ∧
    Forall2 (λ val item, shape [] 0 (fulfilled val) = inr item) vals items.
Proof.
  intros H. revert index. induction H as [|rn val rns' vals Hwell _ IH]; intros index.
  - exists []. by split.
  - destruct (shape_returns rn val Hwell) as [item Hitem].
    destruct (IH (S index)) as (items & Hitems & Hall).
    exists (item :: items). split; [|by constructor].
    cbn [fmap list_fmap map_shape]. rewrite shape_fulfilled_irrel, Hitem.
    unfold mbind, Exc_bind. fold (@fmap list _ _ _ (@fulfilled status_object) vals).
    by rewrite Hitems.
Qed.

(** The items of the answer to a validated query: one per registration
    number, in order, each made by [shape] from what [fetchSingleResult]
    returns for the number. *)
Definition batch_of (upstream : fetch_request → js_error + api_response)
    (q : query) (v : validated) (items : list status_object) : Prop :=
  Forall2 (λ rn item, ∃ val,
    settles_well rn val ∧
    (fetchSingleResult upstream rn (year q) (normalizedSemester v)
       (encodeURIComponent (ToString (exam_held q))) []).1 = inr val ∧
    shape [] 0 (fulfilled val) = inr item)
    (registrationNumbers (prefix v) (startNum v)) items.

(** The requests of the batch. *)
Definition requests_of (q : query) (v : validated) : list fetch_request :=
  map (λ rn, request_for rn (year q) (normalizedSemester v)
               (encodeURIComponent (ToString (exam_held q))))
      (registrationNumbers (prefix v) (startNum v)).

Lemma fetch_phase_run (upstream : fetch_request → js_error + api_response)
    (res : gmap string header_value) (q : query) (v : validated)
    (log : list fetch_request) :
  ∃ items,
    fetch_phase upstream res q v log
    = (inr {| statusCode := 200; headers := res; sent := BatchJson items |},
       (log ++ requests_of q v)%list) ∧
    batch_of upstream q v items.
Proof.
  destruct (allSettled_batch upstream (year q) (normalizedSemester v)
              (encodeURIComponent (ToString (exam_held q)))
              (registrationNumbers (prefix v) (startNum v)) log)
    as (vals & Hsettled & Hvals).
  destruct (map_shape_fulfilled (registrationNumbers (prefix v) (startNum v))
              (registrationNumbers (prefix v) (startNum v)) 0 vals)
    as (items & Hitems & Hall).
  { eapply Forall2_impl; [exact Hvals|]. by intros ?? [? _]. }
  exists items. split.
  - unfold fetch_phase, try_catch, mbind, Async_bind.
    rewrite Hsettled. unfold lift. rewrite Hitems. reflexivity.
  - unfold batch_of. clear Hsettled Hitems.
    revert items Hall. induction Hvals as [|rn val rns vals [Hw Hv] _ IH];
      intros items Hall; inversion Hall; subst; constructor; eauto.
Qed.

Lemma passes_validation_inv (req : request) :
  passes_validation req = true →
  method req = "GET" ∧ ∃ v, validate (req_query req) = inr (inr v).
Proof.
  unfold passes_validation. intros [Hm Hv]%andb_prop.
  apply bool_decide_eq_true in Hm. split; [done|].
  destruct (validate (req_query req)) as [|[|v]]; try discriminate Hv. eauto.
Qed.

(** A request that passes validation is answered with status 200 and the
    batch, after one request per registration number. *)
Lemma handler_run (upstream : fetch_request → js_error + api_response)
    (req : request) (v : validated) (log : list fetch_request) :
  method req = "GET" → validate (req_query req) = inr (inr v) →
  ∃ items,
    handler upstream req log
    = (inr {| statusCode := 200; headers := cors; sent := BatchJson items |},
       (log ++ requests_of (req_query req) v)%list) ∧
    batch_of upstream (req_query req) v items.
Proof.
  intros Hm Hv.
  destruct (fetch_phase_run upstream cors (req_query req) v log) as (items & Hrun & Hb).
  exists items. split; [|done].
  unfold handler, handler_with. rewrite Hm. simpl.
  unfold mbind, Async_bind, lift. rewrite Hv. exact Hrun.
Qed.

(** ** The registration numbers *)

(** The loop runs [BATCH_SIZE] times, for [startNum] to [startNum + 4]. *)
Lemma registrationNumbers_unfold (p : string) (n : Z) :
  registrationNumbers p n
  = [p +:+ suffix n; p +:+ suffix (n + 1); p +:+ suffix (n + 2);
     p +:+ suffix (n + 3); p +:+ suffix (n + 4)].
Proof.
  unfold registrationNumbers, BATCH_SIZE.
  replace (n + 5 - 1 + 1 - n) with 5 by lia.
  cbv [seqZ Z.to_nat Pos.to_nat Pos.iter_op Nat.add seq fmap list_fmap Z.of_nat
       Pos.of_succ_nat Pos.succ].
  by rewrite Z.add_0_l, !(Z.add_comm _ n).
Qed.

(** What the loop body computes for the numbers that can occur, checked on
    each of them: the test [i >= 900] changes nothing, and the suffix has
    three characters below 1000 and four from 1000 on. *)
Definition suffix_checked (i : Z) : bool :=
  bool_decide (suffix i = padStart 3 "0" (Number_toString i)) &&
  bool_decide (String.length (suffix i) = if i <? 1000 then 3%nat else 4%nat).

Lemma suffix_checked_all : forallb suffix_checked (seqZ 0 1004) = true.
Proof. vm_compute. reflexivity. Qed.

Lemma suffix_spec (i : Z) :
  0 ≤ i ≤ 1003 →
  suffix i = padStart 3 "0" (Number_toString i) ∧
  String.length (suffix i) = if i <? 1000 then 3%nat else 4%nat.
Proof.
  intros Hi. pose proof suffix_checked_all as H.
  rewrite forallb_forall in H. specialize (H i).
  unfold suffix_checked in H. rewrite andb_true_iff, !bool_decide_eq_true in H.
  apply H, list_elem_of_In, elem_of_seqZ. lia.
Qed.

(** ** The items of the answer *)

Lemma batch_of_lookup (upstream : fetch_request → js_error + api_response)
    (q : query) (v : validated) (items : list status_object) (i : nat) (rn : string) :
  batch_of upstream q v items →
  registrationNumbers (prefix v) (startNum v) !! i = Some rn →
  ∃ item val,
    items !! i = Some item ∧ settles_well rn val ∧
    (fetchSingleResult upstream rn (year q) (normalizedSemester v)
       (encodeURIComponent (ToString (exam_held q))) []).1 = inr val ∧
    shape [] 0 (fulfilled val) = inr item.
Proof.
  intros Hb Hrn. destruct (Forall2_lookup_l _ _ _ _ _ Hb Hrn) as (item & Hi & val & H).
  exists item, val. by split.
Qed.

Lemma batch_of_length (upstream : fetch_request → js_error + api_response)
    (q : query) (v : validated) (items : list status_object) :
  batch_of upstream q v items → length items = 5%nat.
Proof.
  intros Hb. apply Forall2_length in Hb. rewrite <- Hb.
  by rewrite registrationNumbers_unfold.
Qed.

(** What [shape] makes of each kind of object. *)
Lemma shape_cases (rn : string) (val item : status_object) :
  settles_well rn val →
  shape [] 0 (fulfilled val) = inr item →
  regNo item = Some rn ∧
  ((status val = "success" ∧ status item = "success" ∧ reason item = None ∧
    (delete_prop (data val) "father_name" ≫= λ d, delete_prop d "mother_name")
    = inr (data item) ∧ is_Some (data item)) ∨
   (status val = "not_found" ∧ status item = "Record not found" ∧
    data item = None ∧ reason item = None) ∨
   (status val = "error" ∧ status item = "Error fetching result (temporary)" ∧
    data item = None ∧ ∃ r, reason item = Some (JStr r))).
Proof.
  intros [Hrn [(Hs & Hd & _)|[(Hs & _)|(Hs & _ & r & Hr)]]];
    unfold shape; rewrite Hs; simpl.
  - destruct (data val) as [j|] eqn:Hdata; [|discriminate Hd].
    destruct j; try discriminate Hd; simpl;
      intros [= <-]; simpl; (split; [done|]); left; eauto 10.
  - intros [= <-]. simpl. split; [done|]. right; left. done.
  - intros [= <-]. simpl. split; [done|]. right; right. split_and!; try done.
    rewrite Hr. unfold or_else. destruct (json_truthy (Some (JStr r))); eauto.
Qed.

(** * The claims *)

(** ** Example inputs *)

Definition example_query : query :=
  {| reg_no := Some (QStr "21105110998"); year := Some (QStr "2024");
     semester := Some (QStr "iv"); exam_held := Some (QStr "July/2025") |}.

Definition example_request : request :=
  {| method := "GET"; req_query := example_query |}.

Definition example_fields : gmap string json :=
  list_to_map [("name", JStr "A. Student"); ("father_name", JStr "F. Student");
               ("mother_name", JStr "M. Student"); ("sgpa", JNumber "8.2")].

(** An upstream server that knows every student. *)
Definition example_upstream : fetch_request → js_error + api_response :=
  λ _, inr {| http_status := 200;
              body_json := inr (JObj (list_to_map [("status", JNum 200);
                                                   ("data", JObj example_fields)])) |}.

(** An upstream server that never answers in time. *)
Definition slow_upstream : fetch_request → js_error + api_response :=
  λ _, inl {| name := "AbortError"; message := "The user aborted a request." |}.

(** ** C1 *)

(** The answer to [req] has, at index [i], a success item for [rn] whose
    data is [fields] without [father_name] and [mother_name]. *)
Definition strips_parent_names (answer : js_error + response) (i : nat)
    (rn : string) (fields : gmap string json) : Prop :=
  ∃ items item fields',
    answer = inr {| statusCode := 200; headers := cors; sent := BatchJson items |} ∧
    items !! i = Some item ∧
    status item = "success" ∧ regNo item = Some rn ∧
    data item = Some (JObj fields') ∧
    fields' !! "father_name" = None ∧ fields' !! "mother_name" = None ∧
    ∀ k, k ≠ "father_name" → k ≠ "mother_name" → fields' !! k = fields !! k.

(** C1: for every request that passes validation and every number of the
    batch whose fetch succeeds (the upstream answer is OK and its JSON has
    status 200 and a data object), the item of the answer at the index of
    the number holds that data object with the fields father_name and
    mother_name removed and every other field unchanged. *)
Theorem C1_success_item_strips_parent_names
    (upstream : fetch_request → js_error + api_response) (req : request)
    (v : validated) (log : list fetch_request) (i : nat) (rn : string)
    (fields : gmap string json) :
  passes_validation req = true →
  validate (req_query req) = inr (inr v) →
  registrationNumbers (prefix v) (startNum v) !! i = Some rn →
  upstream_success
    (upstream (request_for rn (year (req_query req)) (normalizedSemester v)
                 (encodeURIComponent (ToString (exam_held (req_query req))))))
    fields →
  strips_parent_names (handler upstream req log).1 i rn fields.
Proof.
  intros [Hm _]%passes_validation_inv Hv Hrn Hup.
  destruct (handler_run upstream req v log Hm Hv) as (items & Hrun & Hb).
  destruct (batch_of_lookup _ _ _ _ _ _ Hb Hrn) as (item & val & Hi & Hw & Hval & Hitem).
  rewrite (fetchSingleResult_success _ _ _ _ _ _ Hup) in Hval.
  injection Hval as <-.
  cbv [shape status bool_decide decide decide_rel] in Hitem. simpl in Hitem.
  injection Hitem as <-.
  eexists items, _, _. split; [by rewrite Hrun|]. split; [exact Hi|].
  simpl. split_and!; try reflexivity.
  - rewrite lookup_delete_ne by done. apply lookup_delete_eq.
  - apply lookup_delete_eq.
  - intros k Hf Hm'. by rewrite !lookup_delete_ne.
Qed.

Lemma C1_success_item_witness :
  strips_parent_names (handler example_upstream example_request []).1 2
    "211051101000" example_fields.
Proof.
  apply (C1_success_item_strips_parent_names example_upstream example_request
           {| prefix := "21105110"; startNum := 998; normalizedSemester := Some "IV" |}).
  - reflexivity.
  - reflexivity.
  - reflexivity.
  - eexists _, _. split; [reflexivity|]. split; [reflexivity|].
    split; [reflexivity|]. split; reflexivity.
Defined.

(** ** C2 *)

(** The words of the specification, written without the functions of the
    code. *)

(** The decimal string of an integer. *)
Definition decimal_string (n : Z) : string := NilZero.string_of_int (Z.to_int n).

Fixpoint zeros (k : nat) : string :=
  match k with
  | O => EmptyString
  | S k' => String "0" (zeros k')
  end.

(** A string left-padded with zeros to [width] characters at least. *)
Definition left_padded_with_zeros (width : nat) (s : string) : string :=
  zeros (width - String.length s) +:+ s.

(** [digits] writes [n] in three decimal digits or more, with no zero in
    front of a number of more than three digits. *)
Definition is_padded_decimal (n : Z) (digits : string) : bool :=
  forallb (λ c, bool_decide (c ∈ decimal_digits)) (list_ascii_of_string digits) &&
  (decimal_value digits =? n) &&
  (3 <=? String.length digits)%nat &&
  ((String.length digits =? 3)%nat ||
   negb (bool_decide (head (list_ascii_of_string digits) = Some "0"%char))).

(** The batch as the specification words it: the first 8 characters of
    [reg_no], followed by the decimal string, left-padded with zeros to 3
    digits at least, of each of the five numbers from the value of its last
    3 digits on. *)
Definition numbers_of (reg_no : string) : list string :=
  let startNum := decimal_value (substring 8 3 reg_no) in
  (λ k, substring 0 8 reg_no
        +:+ left_padded_with_zeros 3 (decimal_string (startNum + k)))
    <$> [0; 1; 2; 3; 4].

(** The same, digit by digit: each number is the first 8 characters of
    [reg_no] and digits that write the number due. *)
Definition written_in_padded_decimal (reg_no : string) (numbers : list string) : Prop :=
  let startNum := decimal_value (substring 8 3 reg_no) in
  Forall2 (λ k number, ∃ digits,
             number = substring 0 8 reg_no +:+ digits ∧
             is_padded_decimal (startNum + k) digits = true)
    [0; 1; 2; 3; 4] numbers.

(** The handler builds the numbers of [reg_no] and issues one request for
    each, in order, and no other. *)
Definition fetches_numbers_once (upstream : fetch_request → js_error + api_response)
    (req : request) (log : list fetch_request) : Prop :=
  ∃ s v,
    reg_no (req_query req) = Some (QStr s) ∧
    validate (req_query req) = inr (inr v) ∧
    registrationNumbers (prefix v) (startNum v) = numbers_of s ∧
    written_in_padded_decimal s (numbers_of s) ∧
    Z.of_nat (length (numbers_of s)) = BATCH_SIZE ∧
    (handler upstream req log).2
    = (log ++ map (λ rn, request_for rn (year (req_query req)) (normalizedSemester v)
                           (encodeURIComponent (ToString (exam_held (req_query req)))))
                  (numbers_of s))%list.

(** The suffix of the code against the words of the specification, on each
    of the numbers that can occur. *)
Definition suffix_as_specified (i : Z) : bool :=
  bool_decide (suffix i = left_padded_with_zeros 3 (decimal_string i)) &&
  is_padded_decimal i (suffix i).

Lemma suffix_as_specified_all : forallb suffix_as_specified (seqZ 0 1004) = true.
Proof. vm_compute. reflexivity. Qed.

Lemma suffix_is_padded_decimal (i : Z) :
  0 ≤ i ≤ 1003 →
  suffix i = left_padded_with_zeros 3 (decimal_string i) ∧
  is_padded_decimal i (suffix i) = true.
Proof.
  intros Hi. pose proof suffix_as_specified_all as H.
  rewrite forallb_forall in H. specialize (H i).
  unfold suffix_as_specified in H. rewrite andb_true_iff, bool_decide_eq_true in H.
  apply H, list_elem_of_In, elem_of_seqZ. lia.
Qed.

(** C2: for every request that passes validation the handler builds exactly
    BATCH_SIZE = 5 registration numbers, each the first 8 characters of
    reg_no followed by the zero-padded decimal string of startNum to
    startNum + 4, startNum being the value of the last 3 digits of reg_no,
    and it issues exactly one upstream fetch for each of them. *)
Theorem C2_batch_of_five_fetched_once
    (upstream : fetch_request → js_error + api_response) (req : request)
    (log : list fetch_request) :
  passes_validation req = true → fetches_numbers_once upstream req log.
Proof.
  intros [Hm [v Hv]]%passes_validation_inv.
  pose proof (validate_cases (req_query req)) as Hc. rewrite Hv in Hc.
  destruct Hc as (_ & s & sem & Hs & _ & Hp & _ & Hn & Hr & _).
  destruct (handler_run upstream req v log Hm Hv) as (items & Hrun & _).
  assert (∀ k, 0 ≤ k ≤ 4 →
    left_padded_with_zeros 3 (decimal_string (startNum v + k)) = suffix (startNum v + k) ∧
    is_padded_decimal (startNum v + k)
      (left_padded_with_zeros 3 (decimal_string (startNum v + k))) = true) as Hk.
  { intros k Hk. destruct (suffix_is_padded_decimal (startNum v + k)) as [<- ?]; [lia|].
    done. }
  assert (registrationNumbers (prefix v) (startNum v) = numbers_of s) as Hnum.
  { rewrite registrationNumbers_unfold. unfold numbers_of. rewrite <- Hp, <- Hn.
    cbn [fmap list_fmap].
    destruct (Hk 0) as [-> _]; [lia|]. destruct (Hk 1) as [-> _]; [lia|].
    destruct (Hk 2) as [-> _]; [lia|]. destruct (Hk 3) as [-> _]; [lia|].
    destruct (Hk 4) as [-> _]; [lia|]. by rewrite Z.add_0_r. }
  exists s, v. split_and!; try done.
  - unfold written_in_padded_decimal, numbers_of. rewrite <- Hp, <- Hn.
    cbn [fmap list_fmap].
    repeat (constructor; [eexists; split; [reflexivity|apply Hk; lia]|]).
    constructor.
  - rewrite Hrun. unfold requests_of. by rewrite Hnum.
Qed.

Lemma C2_batch_witness : fetches_numbers_once example_upstream example_request [].
Proof.
  apply (C2_batch_of_five_fetched_once example_upstream example_request []).
  reflexivity.
Defined.

(** ** C9 *)

(** The items of the answer are in the order of the numbers. *)
Definition answers_in_order (answer : js_error + response) (v : validated) : Prop :=
  ∃ items,
    answer = inr {| statusCode := 200; headers := cors; sent := BatchJson items |} ∧
    ∀ i, (i < 5)%nat →
      ∃ rn item,
        registrationNumbers (prefix v) (startNum v) !! i = Some rn ∧
        items !! i = Some item ∧ regNo item = Some rn.

(** C9: for every request that passes validation and every index i from 0
    to 4, the i-th item of the batch response has regNo equal to the i-th
    constructed registration number. *)
Theorem C9_items_follow_numbers
    (upstream : fetch_request → js_error + api_response) (req : request)
    (v : validated) (log : list fetch_request) :
  passes_validation req = true →
  validate (req_query req) = inr (inr v) →
  answers_in_order (handler upstream req log).1 v.
Proof.
  intros [Hm _]%passes_validation_inv Hv.
  destruct (handler_run upstream req v log Hm Hv) as (items & Hrun & Hb).
  exists items. split; [by rewrite Hrun|]. intros i Hi.
  destruct (lookup_lt_is_Some_2 (registrationNumbers (prefix v) (startNum v)) i)
    as [rn Hrn]; [by rewrite registrationNumbers_unfold|].
  destruct (batch_of_lookup _ _ _ _ _ _ Hb Hrn) as (item & val & Hitem & Hw & _ & Hs).
  exists rn, item. split_and!; try done.
  by destruct (shape_cases rn val item Hw Hs).
Qed.

Lemma C9_items_witness :
  answers_in_order (handler example_upstream example_request []).1
    {| prefix := "21105110"; startNum := 998; normalizedSemester := Some "IV" |}.
Proof.
  apply (C9_items_follow_numbers example_upstream example_request _ []); reflexivity.
Defined.

(** ** C5 *)

(** An item of the shape that the specification describes. *)
Definition well_shaped_item (item : status_object) : Prop :=
  is_Some (regNo item) ∧
  ((status item = "success" ∧ is_Some (data item)) ∨
   status item = "Record not found" ∨
   (status item = "Error fetching result (temporary)" ∧
    ∃ r, reason item = Some (JStr r))).

Definition answers_batch (answer : js_error + response) : Prop :=
  ∃ items,
    answer = inr {| statusCode := 200; headers := cors; sent := BatchJson items |} ∧
    length items = 5%nat ∧ Forall well_shaped_item items.

Lemma handler_answers_batch (upstream : fetch_request → js_error + api_response)
    (req : request) (v : validated) (log : list fetch_request) :
  method req = "GET" → validate (req_query req) = inr (inr v) →
  answers_batch (handler upstream req log).1.
Proof.
  intros Hm Hv.
  destruct (handler_run upstream req v log Hm Hv) as (items & Hrun & Hb).
  exists items. rewrite Hrun. split; [done|]. split; [by eapply batch_of_length|].
  apply Forall_lookup. intros i item Hi.
  destruct (Forall2_lookup_r _ _ _ _ _ Hb Hi) as (rn & _ & val & Hw & _ & Hs).
  destruct (shape_cases rn val item Hw Hs) as [Hrn Hcases].
  split; [by rewrite Hrn|].
  destruct Hcases as [(_ & ? & _ & _ & ?)|[(_ & ? & _)|(_ & ? & _ & ?)]]; eauto.
Qed.

(** C5: for every request that passes validation the handler responds with
    HTTP 200 and an array of exactly 5 items; every item has a regNo and a
    status that is one of 'success', 'Record not found' and 'Error fetching
    result (temporary)'; a success item carries data, and an error item
    carries a reason that is a string. *)
Theorem C5_answer_is_batch_of_five
    (upstream : fetch_request → js_error + api_response) (req : request)
    (log : list fetch_request) :
  passes_validation req = true → answers_batch (handler upstream req log).1.
Proof.
  intros [Hm [v Hv]]%passes_validation_inv. by eapply handler_answers_batch.
Qed.

Lemma C5_answer_witness : answers_batch (handler slow_upstream example_request []).1.
Proof.
  apply (C5_answer_is_batch_of_five slow_upstream example_request []). reflexivity.
Defined.

(** ** C10 *)

(** The lengths of the numbers of the batch, by the value of [startNum]. *)
Definition lengths_of_batch (v : validated) : Prop :=
  let rns := registrationNumbers (prefix v) (startNum v) in
  (startNum v ≤ 995 → Forall (λ rn, String.length rn = 11%nat) rns) ∧
  (996 ≤ startNum v →
   (∀ k rn, rns !! k = Some rn →
      String.length rn = if startNum v + Z.of_nat k <? 1000 then 11%nat else 12%nat) ∧
   (∃ rn, rns !! 4%nat = Some rn ∧ String.length rn = 12%nat)).

(** C10: when the last three digits of a valid reg_no parse to 995 at most,
    the five registration numbers have 11 characters each; when they parse
    to 996 or more, the numbers from 1000 on, the last of the batch among
    them, have 12 characters: the prefix of 8 and a suffix of 4 digits. *)
Theorem C10_lengths_of_numbers (req : request) (v : validated) :
  passes_validation req = true →
  validate (req_query req) = inr (inr v) →
  lengths_of_batch v.
Proof.
  intros _ Hv.
  pose proof (validate_cases (req_query req)) as Hc. rewrite Hv in Hc.
  destruct Hc as (_ & s & sem & _ & _ & _ & Hp & _ & Hr & _).
  assert (∀ k, 0 ≤ k ≤ 4 →
    String.length (prefix v +:+ suffix (startNum v + k))
    = if startNum v + k <? 1000 then 11%nat else 12%nat) as Hlen.
  { intros k Hk. rewrite string_length_app, Hp.
    destruct (suffix_spec (startNum v + k)) as [_ ->]; [lia|].
    by destruct (startNum v + k <? 1000). }
  unfold lengths_of_batch. rewrite registrationNumbers_unfold. split.
  - intros Hle. rewrite <- (Z.add_0_r (startNum v)) at 1.
    repeat constructor; rewrite Hlen by lia;
      by rewrite (proj2 (Z.ltb_lt _ _)) by lia.
  - intros Hge. split.
    + intros k rn Hk.
      do 5 (destruct k as [|k];
            [injection Hk as <-; rewrite <- Hlen by lia; do 3 f_equal; lia|]).
      discriminate Hk.
    + eexists. split; [reflexivity|]. rewrite Hlen by lia.
      by rewrite (proj2 (Z.ltb_ge _ _)) by lia.
Qed.

Lemma C10_lengths_witness :
  lengths_of_batch {| prefix := "21105110"; startNum := 998;
                      normalizedSemester := Some "IV" |}.
Proof.
  apply (C10_lengths_of_numbers example_request); reflexivity.
Defined.

(** ** C6 *)

(** The fetch failed with the error [e]: [fetch] rejected with it, or the
    reading of the body did. *)
Definition fails_with (answer : js_error + api_response) (e : js_error) : Prop :=
  answer = inl e ∨
  ∃ resp, answer = inr resp ∧ ok resp = true ∧ body_json resp = inl e.

Definition timed_out (rn : string) : status_object :=
  {| status := "error"; regNo := Some rn;
     reason := Some (JStr "Request Timed Out"); data := None |}.

(** C6: every fetch of fetchSingleResult is issued with an abort timer of
    FETCH_TIMEOUT = 8000 milliseconds, and when the fetch fails with an
    error named 'AbortError', fetchSingleResult does not throw: it returns
    an object with status 'error' and reason 'Request Timed Out'. *)
Theorem C6_abort_timer_and_timeout_result
    (upstream : fetch_request → js_error + api_response) (rn : string)
    (year : option qval) (semesterRoman : option string) (encodedExamHeld : string)
    (log : list fetch_request) :
  FETCH_TIMEOUT = 8000 ∧
  ∃ r val,
    fetchSingleResult upstream rn year semesterRoman encodedExamHeld log
    = (inr val, (log ++ [r])%list) ∧
    abort_after r = FETCH_TIMEOUT ∧
    ∀ e, fails_with (upstream r) e → name e = "AbortError" → val = timed_out rn.
Proof.
  split; [reflexivity|].
  destruct (fetchSingleResult_run upstream year semesterRoman encodedExamHeld rn log)
    as (val & Hrun & _ & Hval).
  exists (request_for rn year semesterRoman encodedExamHeld), val.
  split; [exact Hrun|]. split; [reflexivity|].
  intros e Hfail Hname. revert Hval.
  unfold fetchSingleResult, try_catch, mbind, Async_bind, fetch, lift, mret, Async_ret.
  fold (request_for rn year semesterRoman encodedExamHeld).
  destruct Hfail as [->|(resp & -> & Hok & Hbody)].
  - simpl. rewrite Hname. simpl. by intros [= <-].
  - rewrite Hok. simpl. rewrite Hbody. simpl. rewrite Hname. simpl. by intros [= <-].
Qed.

Lemma C6_abort_timer_witness :
  (fetchSingleResult slow_upstream "21105110998" (Some (QStr "2024")) (Some "IV")
     "July%2F2025" []).1 = inr (timed_out "21105110998").
Proof.
  destruct (C6_abort_timer_and_timeout_result slow_upstream "21105110998"
              (Some (QStr "2024")) (Some "IV") "July%2F2025" [])
    as (_ & r & val & Hrun & _ & Hval).
  rewrite Hrun. simpl. f_equal.
  apply (Hval {| name := "AbortError"; message := "The user aborted a request." |}).
  - left. reflexivity.
  - reflexivity.
Defined.

(** ** C8 *)

(** C8: fetchSingleResult never rejects: for every input and every upstream
    outcome it returns an object whose status is one of 'success',
    'not_found' and 'error'; hence every promise that the handler passes to
    Promise.allSettled is fulfilled, and the branch of the handler for a
    rejected promise is never taken. *)
Theorem C8_fetchSingleResult_never_rejects
    (upstream : fetch_request → js_error + api_response) (year : option qval)
    (semesterRoman : option string) (encodedExamHeld : string)
    (log : list fetch_request) :
  (∀ rn, ∃ val log',
     fetchSingleResult upstream rn year semesterRoman encodedExamHeld log
     = (inr val, log') ∧
     status val ∈ ["success"; "not_found"; "error"]) ∧
  (∀ rns, ∃ resultsSettled log',
     allSettled
       (map (λ rn, fetchSingleResult upstream rn year semesterRoman encodedExamHeld) rns)
       log
     = (inr resultsSettled, log') ∧
     Forall (λ result, ∃ val, result = fulfilled val) resultsSettled).
Proof.
  split.
  - intros rn.
    destruct (fetchSingleResult_run upstream year semesterRoman encodedExamHeld rn log)
      as (val & Hrun & [_ Hstatus] & _).
    exists val. eexists. split; [exact Hrun|].
    destruct Hstatus as [(-> & _)|[(-> & _)|(-> & _)]]; set_solver.
  - intros rns.
    destruct (allSettled_batch upstream year semesterRoman encodedExamHeld rns log)
      as (vals & Hrun & _).
    exists (fulfilled <$> vals). eexists. split; [exact Hrun|].
    apply Forall_fmap, Forall_forall. intros val _. by exists val.
Qed.

(** ** C7 *)

(** The requests that the handler issues for [req]. *)
Definition issued (upstream : fetch_request → js_error + api_response)
    (req : request) : list fetch_request :=
  (handler upstream req []).2.

(** Two runs of the handler end alike: the same answer, or the same error
    thrown, and the same requests added to the log. *)
Definition same_outcome (run1 run2 : (js_error + response) * list fetch_request)
    (log1 log2 : list fetch_request) : Prop :=
  run1.1 = run2.1 ∧
  ∃ requests, run1.2 = (log1 ++ requests)%list ∧ run2.2 = (log2 ++ requests)%list.

Lemma fetchSingleResult_ext (upstream1 upstream2 : fetch_request → js_error + api_response)
    (rn : string) (year : option qval) (semesterRoman : option string)
    (encodedExamHeld : string) (log : list fetch_request) :
  upstream1 (request_for rn year semesterRoman encodedExamHeld)
  = upstream2 (request_for rn year semesterRoman encodedExamHeld) →
  fetchSingleResult upstream1 rn year semesterRoman encodedExamHeld log
  = fetchSingleResult upstream2 rn year semesterRoman encodedExamHeld log.
Proof.
  intros H.
  unfold fetchSingleResult, try_catch, mbind, Async_bind, fetch.
  fold (request_for rn year semesterRoman encodedExamHeld). by rewrite H.
Qed.

Lemma batch_of_ext (upstream1 upstream2 : fetch_request → js_error + api_response)
    (q : query) (v : validated) (items1 items2 : list status_object) :
  (∀ r, r ∈ requests_of q v → upstream1 r = upstream2 r) →
  batch_of upstream1 q v items1 → batch_of upstream2 q v items2 → items1 = items2.
Proof.
  unfold batch_of, requests_of.
  generalize (registrationNumbers (prefix v) (startNum v)). intros rns Hagree H1.
  revert items2. induction H1 as [|rn item1 rns items1 (val1 & _ & Hv1 & Hs1) _ IH];
    intros items2 H2; inversion H2 as [|? item2 ? items2' (val2 & _ & Hv2 & Hs2) H2']; subst.
  - done.
  - rewrite (fetchSingleResult_ext upstream1 upstream2) in Hv1
      by (apply Hagree; simpl; apply elem_of_cons; by left).
    rewrite Hv1 in Hv2. injection Hv2 as <-.
    rewrite Hs1 in Hs2. injection Hs2 as <-.
    f_equal. apply IH; [|done]. intros r Hr. apply Hagree. simpl. apply elem_of_cons. by right.
Qed.

(** A request that does not pass validation is answered, or makes the
    handler throw, without the upstream server. *)
Lemma handler_without_batch (upstream1 upstream2 : fetch_request → js_error + api_response)
    (req : request) (log1 log2 : list fetch_request) :
  passes_validation req = false →
  same_outcome (handler upstream1 req log1) (handler upstream2 req log2) log1 log2 ∧
  (handler upstream1 req log1).2 = log1.
Proof.
  unfold passes_validation, handler, handler_with, same_outcome.
  destruct (bool_decide (method req = "OPTIONS")) eqn:Ho.
  { intros _. simpl. split_and!; try done. exists []. by rewrite !app_nil_r. }
  destruct (bool_decide (method req = "GET")) eqn:Hg; simpl.
  2:{ intros _. split_and!; try done. exists []. by rewrite !app_nil_r. }
  unfold mbind, Async_bind, lift.
  destruct (validate (req_query req)) as [e|[msg|v]]; [| |discriminate].
  - intros _. simpl. split_and!; try done. exists []. by rewrite !app_nil_r.
  - intros _. simpl. split_and!; try done. exists []. by rewrite !app_nil_r.
Qed.

(** C7: the handler is stateless and deterministic: two invocations on the
    same request, with upstream servers that answer alike to each request
    built for it, give the same client response (status code, headers and
    body) and issue the same requests, whatever was served before. *)
Theorem C7_handler_deterministic
    (upstream1 upstream2 : fetch_request → js_error + api_response)
    (req : request) (log1 log2 : list fetch_request) :
  (∀ r, r ∈ issued upstream1 req → upstream1 r = upstream2 r) →
  same_outcome (handler upstream1 req log1) (handler upstream2 req log2) log1 log2.
Proof.
  intros Hagree.
  destruct (passes_validation req) eqn:Hpass;
    [|by apply handler_without_batch].
  apply passes_validation_inv in Hpass as [Hm [v Hv]].
  destruct (handler_run upstream1 req v log1 Hm Hv) as (items1 & Hrun1 & Hb1).
  destruct (handler_run upstream2 req v log2 Hm Hv) as (items2 & Hrun2 & Hb2).
  destruct (handler_run upstream1 req v [] Hm Hv) as (items0 & Hrun0 & _).
  unfold issued in Hagree. rewrite Hrun0 in Hagree. simpl in Hagree.
  rewrite (batch_of_ext upstream1 upstream2 _ _ items1 items2 Hagree Hb1 Hb2) in Hrun1.
  unfold same_outcome. rewrite Hrun1, Hrun2. simpl. split; [done|]. eauto.
Qed.

(** An upstream server that differs from [example_upstream] on requests
    that the handler does not build for [example_request] only. *)
Definition other_upstream : fetch_request → js_error + api_response :=
  λ r, if bool_decide (abort_after r = FETCH_TIMEOUT) then example_upstream r
       else slow_upstream r.

Lemma C7_handler_witness :
  same_outcome (handler example_upstream example_request [])
    (handler other_upstream example_request
       [request_for "21105110001" None None EmptyString]) []
    [request_for "21105110001" None None EmptyString].
Proof.
  apply (C7_handler_deterministic example_upstream other_upstream example_request).
  intros r Hr. vm_compute in Hr.
  repeat (apply elem_of_cons in Hr as [->|Hr]; [reflexivity|]).
  by apply elem_of_nil in Hr.
Defined.

Definition method_not_allowed (m : string) : response :=
  {| statusCode := 405;
     headers := setHeader "Allow" (HArray ["GET"; "OPTIONS"]) cors;
     sent := ErrorJson ("Method " +:+ m +:+ " Not Allowed") None |}.

Definition bad_request (error : string) : response :=
  {| statusCode := 400; headers := cors; sent := ErrorJson error None |}.

(** The handler, branch by branch. *)
Lemma handler_with_cases (upstream : fetch_request → js_error + api_response)
    (validate' : query → js_error + (string + validated))
    (req : request) (log : list fetch_request) :
  handler_with upstream validate' req log =
  if bool_decide (method req = "OPTIONS") then
    (inr {| statusCode := 204; headers := cors; sent := Ended |}, log)
  else if negb (bool_decide (method req = "GET")) then
    (inr (method_not_allowed (method req)), log)
  else match validate' (req_query req) with
       | inl e => (inl e, log)
       | inr (inl error) => (inr (bad_request error), log)
       | inr (inr v) => fetch_phase upstream cors (req_query req) v log
       end.
Proof.
  unfold handler_with.
  destruct (bool_decide (method req = "OPTIONS")); [done|].
  destruct (bool_decide (method req = "GET")); [|done]. simpl.
  unfold mbind, Async_bind, lift. by destruct (validate' (req_query req)) as [|[|]].
Qed.

(** ** C3 *)


Definition reg_no_message_part_000 : string :=
  "Invalid parameter. Use " +:+ dq +:+ "reg_no" +:+ dq +:+ " with full 11-digit number.".


Lemma regex_d_inv (s : string) :
  regex_test (Literal "d") 11 s = true → s = "ddddddddddd".
Proof.
  unfold regex_test. intros [Hlen Hd]%andb_prop. apply Nat.eqb_eq in Hlen.
  destruct (length_11_inv s Hlen)
    as (c1 & c2 & c3 & c4 & c5 & c6 & c7 & c8 & c9 & c10 & c11 & ->).
  simpl in Hd. unfold atom_matches in Hd.
  repeat (apply andb_prop in Hd as [? Hd]).
  repeat match goal with
         | H : (if decide (?c = _) then true else false) = true |- _ =>
             destruct (decide (c = "d"%char)) as [->|]; [clear H|discriminate H]
         end.
  reflexivity.
Qed.

(** [part_000] never reaches its fetch phase: the only [reg_no] that its
    pattern accepts is made of the letter d, and no number is parsed from
    the end of it. *)
Lemma part_000_never_fetches (q : query) (v : validated) :
  validate_part_000 q ≠ inr (inr v).
Proof.
  unfold validate_part_000.
  destruct (regex_test (Literal "d") 11 (ToString (reg_no q))) eqn:Hre.
  - destruct (reg_no q) as [[s|a b rest]|] eqn:Hreg;
      [|by rewrite regex_test_array in Hre|discriminate Hre].
    apply regex_d_inv in Hre. change (ToString (Some (QStr s))) with s in Hre.
    subst s. simpl orb.
    destruct (negb (truthy (year q)) || isNaN (parseInt (ToString (year q)) None));
      destruct (optional_toUpperCase (semester q)) as [e|ns]; try done;
      unfold mbind, Exc_bind;
      destruct (semester_rejected ns); try done;
      by destruct (negb (truthy (exam_held q))).
  - rewrite orb_true_r.
    destruct (optional_toUpperCase (semester q)) as [e|ns]; [done|].
    unfold mbind, Exc_bind.
    destruct (semester_rejected ns); [done|].
    by destruct (negb (truthy (exam_held q))).
Qed.









(** ** C4 *)

(** For a request whose [semester] is not repeated, the handler of
    [result.js] answers 400, without a request upstream, when the query is
    not valid, and fetches the batch when it is. *)
Lemma handler_validates (upstream : fetch_request → js_error + api_response)
    (req : request) (log : list fetch_request) :
  method req = "GET" →
  (∀ a b rest, semester (req_query req) ≠ Some (QArr a b rest)) →
  if valid_query (req_query req) then
    passes_validation req = true ∧ answers_batch (handler upstream req log).1
  else
    ∃ error,
      handler upstream req log
      = (inr {| statusCode := 400; headers := cors; sent := ErrorJson error None |}, log).
Proof.
  intros Hm Hsem.
  pose proof (validate_cases (req_query req)) as Hc.
  destruct (validate (req_query req)) as [e|[error|v]] eqn:Hv.
  - destruct Hc as [(a & b & rest & Ha) _]. by destruct (Hsem a b rest).
  - rewrite Hc. exists error.
    unfold handler, handler_with. rewrite Hm. simpl.
    unfold mbind, Async_bind, lift. by rewrite Hv.
  - destruct Hc as [-> _].
    assert (passes_validation req = true) as Hpass.
    { unfold passes_validation. by rewrite Hm, Hv. }
    split; [done|]. by eapply handler_answers_batch.
Qed.

(** A request that gives [semester] twice:
    [?reg_no=21105110998&year=2024&semester=I&semester=II&exam_held=July/2025] *)
Definition repeated_semester_request : request :=
  {| method := "GET";
     req_query := {| reg_no := Some (QStr "21105110998"); year := Some (QStr "2024");
                     semester := Some (QArr "I" "II" []);
                     exam_held := Some (QStr "July/2025") |} |}.

(** C4, at a request whose semester is repeated: the semester is not one of
    the Roman numerals, so that the 400 answer is due, and the handler of
    result.js throws a TypeError instead of answering. *)
Theorem C4_repeated_semester_throws
    (upstream : fetch_request → js_error + api_response) (log : list fetch_request) :
  method repeated_semester_request = "GET" ∧
  valid_query (req_query repeated_semester_request) = false ∧
  roman_semester (semester (req_query repeated_semester_request)) = false ∧
  handler upstream repeated_semester_request log
  = (inl (TypeError "semester?.toUpperCase is not a function"), log).
Proof. split_and!; reflexivity. Qed.

(** * Further properties of the handlers *)

(** ** The order of the checks *)

Definition reg_no_message : string :=
  "Invalid parameter. Use " +:+ dq +:+ "reg_no" +:+ dq +:+ " with a full 11-digit number.".
Definition year_message : string :=
  "Missing or invalid " +:+ dq +:+ "year" +:+ dq +:+ " parameter.".
Definition semester_message : string :=
  "Missing or invalid " +:+ dq +:+ "semester" +:+ dq +:+ " parameter (use Roman numerals I-VIII).".
Definition exam_held_message : string :=
  "Missing " +:+ dq +:+ "exam_held" +:+ dq +:+ " parameter.".

Definition year_message_part_000 : string :=
  "Missing or invalid " +:+ dq +:+ "year" +:+ dq +:+ ".".
Definition semester_message_part_000 : string :=
  "Missing or invalid " +:+ dq +:+ "semester" +:+ dq +:+ " (Roman I-VIII).".

Definition is_repeated (v : option qval) : bool :=
  match v with Some (QArr _ _ _) => true | _ => false end.

(** The locals of an accepted query, read off its parameters. *)
Definition locals_of (q : query) : validated :=
  {| prefix := substring 0 8 (ToString (reg_no q));
     startNum := decimal_value (substring 8 3 (ToString (reg_no q)));
     normalizedSemester := Some (toUpperCase (ToString (semester q))) |}.

Lemma semester_rejected_opt (v : option qval) :
  is_repeated v = false →
  ∃ ns, optional_toUpperCase v = inr ns ∧
        semester_rejected ns = negb (roman_semester v) ∧
        (roman_semester v = true → ns = Some (toUpperCase (ToString v))).
Proof.
  destruct v as [[s|a b rest]|]; [| discriminate |]; intros _.
  - eexists. split; [reflexivity|]. split; [apply semester_rejected_spec | done].
  - exists None. by split.
Qed.

(** [validate] as a cascade of the four checks: the first that fails gives
    the message, a repeated [semester] is reached after [reg_no] and [year]
    only, and the test of [startNum] never fails. *)
Lemma validate_cascade (q : query) :
  validate q =
  if negb (eleven_decimal_digits (reg_no q)) then inr (inl reg_no_message)
  else if negb (parses_as_integer (year q)) then inr (inl year_message)
  else if is_repeated (semester q) then
    inl (TypeError "semester?.toUpperCase is not a function")
  else if negb (roman_semester (semester q)) then inr (inl semester_message)
  else if missing_or_empty (exam_held q) then inr (inl exam_held_message)
  else inr (inr (locals_of q)).
Proof.
  unfold validate. rewrite reg_no_check, year_check, exam_held_check.
  destruct (eleven_decimal_digits (reg_no q)) eqn:Hreg; [|done].
  destruct (parses_as_integer (year q)) eqn:Hyear; [|done].
  simpl negb. cbv iota.
  destruct (is_repeated (semester q)) eqn:Hrep.
  { by destruct (semester q) as [[|]|]. }
  destruct (semester_rejected_opt _ Hrep) as (ns & -> & Hrej & Hns).
  unfold mbind, Exc_bind at 1. rewrite Hrej.
  destruct (roman_semester (semester q)); [|done]. simpl negb. cbv iota.
  destruct (missing_or_empty (exam_held q)); [done|].
  destruct (reg_no q) as [[s|? ? ?]|] eqn:Hs; [|done|done].
  destruct (slices_of_valid s Hreg) as (-> & -> & Hp & _).
  unfold mbind, Exc_bind. rewrite Hp, Hns by done.
  unfold locals_of. rewrite Hs. reflexivity.
Qed.

(** The pattern of [part_000] matches one string only. *)
Definition all_d (v : option qval) : bool :=
  match v with
  | Some (QStr s) => bool_decide (s = "ddddddddddd")
  | _ => false
  end.

Lemma reg_no_check_part_000 (v : option qval) :
  negb (truthy v) || negb (regex_test (Literal "d") 11 (ToString v)) = negb (all_d v).
Proof.
  unfold all_d. destruct v as [[s|a b rest]|]; [| |done].
  - change (ToString (Some (QStr s))) with s.
    destruct (regex_test (Literal "d") 11 s) eqn:Hre.
    + apply regex_d_inv in Hre as ->. reflexivity.
    + rewrite orb_true_r. symmetry. rewrite negb_true_iff, bool_decide_eq_false.
      intros ->. discriminate Hre.
  - by rewrite regex_test_array.
Qed.

(** [validate_part_000] as a cascade: [semester] is read first and its
    message, or that of [exam_held], replaces the one of [reg_no] or
    [year]; the only [reg_no] that the pattern lets through fails at the
    parsing of its end. *)
Lemma validate_part_000_cascade (q : query) :
  validate_part_000 q =
  if is_repeated (semester q) then
    inl (TypeError "semester?.toUpperCase is not a function")
  else if negb (roman_semester (semester q)) then inr (inl semester_message_part_000)
  else if missing_or_empty (exam_held q) then inr (inl exam_held_message)
  else if negb (all_d (reg_no q)) then inr (inl reg_no_message_part_000)
  else if negb (parses_as_integer (year q)) then inr (inl year_message_part_000)
  else inr (inl "Failed to parse number from reg_no.").
Proof.
  unfold validate_part_000.
  rewrite reg_no_check_part_000, year_check, exam_held_check.
  destruct (is_repeated (semester q)) eqn:Hrep.
  { by destruct (semester q) as [[|]|]. }
  destruct (semester_rejected_opt _ Hrep) as (ns & -> & Hrej & _).
  unfold mbind, Exc_bind at 1. rewrite Hrej.
  destruct (roman_semester (semester q)); [|done]. simpl negb. cbv iota.
  destruct (missing_or_empty (exam_held q)); [done|].
  destruct (all_d (reg_no q)) eqn:Hd; [|done]. simpl negb. cbv iota.
  destruct (parses_as_integer (year q)); [|done]. simpl negb. cbv iota.
  destruct (reg_no q) as [[s|? ? ?]|]; try discriminate Hd.
  apply bool_decide_eq_true in Hd as ->. reflexivity.
Qed.

(** ** What the handlers answer *)

(** The CORS headers of an answer, and its [Allow] header. *)
Definition has_cors_headers (resp : response) : Prop :=
  headers resp !! "Access-Control-Allow-Origin" = Some (HString "*") ∧
  headers resp !! "Access-Control-Allow-Methods" = Some (HString "GET, OPTIONS") ∧
  headers resp !! "Access-Control-Allow-Headers" = Some (HString "Content-Type") ∧
  headers resp !! "Allow"
  = if statusCode resp =? 405 then Some (HArray ["GET"; "OPTIONS"]) else None.

(** X1: Every answer of either handler, whatever its status, carries the three
    CORS headers; the [Allow] header is on the 405 answers and on no
    other. *)
Theorem cors_headers_on_every_answer
    (upstream : fetch_request → js_error + api_response)
    (validate' : query → js_error + (string + validated))
    (req : request) (log : list fetch_request) (resp : response) :
  (handler_with upstream validate' req log).1 = inr resp → has_cors_headers resp.
Proof.
  rewrite handler_with_cases.
  destruct (bool_decide (method req = "OPTIONS")).
  { intros [= <-]. by split_and!. }
  destruct (bool_decide (method req = "GET")); simpl.
  2:{ intros [= <-]. by split_and!. }
  destruct (validate' (req_query req)) as [e|[error|v]]; simpl.
  - discriminate.
  - intros [= <-]. by split_and!.
  - destruct (fetch_phase_run upstream cors (req_query req) v log) as (items & -> & _).
    intros [= <-]. by split_and!.
Qed.

Lemma cors_headers_witness :
  has_cors_headers (method_not_allowed "POST") ∧
  has_cors_headers (bad_request reg_no_message_part_000).
Proof.
  split.
  - apply (cors_headers_on_every_answer example_upstream validate
             {| method := "POST"; req_query := example_query |} []).
    reflexivity.
  - apply (cors_headers_on_every_answer example_upstream validate_part_000
             example_request []).
    reflexivity.
Defined.

(** The status of the answer of [result.js] by the method and the
    validation. *)
Definition status_of (req : request) : Z :=
  if bool_decide (method req = "OPTIONS") then 204
  else if negb (bool_decide (method req = "GET")) then 405
  else if passes_validation req then 200 else 400.

(** X2: The handler of [result.js] answers 204, 405, 400 or 200 and never 500;
    the status is decided by the method and the validation alone; and it
    issues five requests upstream when it answers 200 and none otherwise. *)
Theorem handler_status_and_requests
    (upstream : fetch_request → js_error + api_response)
    (req : request) (log : list fetch_request) :
  ∃ requests,
    (handler upstream req log).2 = (log ++ requests)%list ∧
    length requests = (if passes_validation req then 5 else 0)%nat ∧
    ∀ resp, (handler upstream req log).1 = inr resp → statusCode resp = status_of req.
Proof.
  unfold handler, status_of, passes_validation. rewrite handler_with_cases.
  destruct (decide (method req = "OPTIONS")) as [Ho|Ho].
  { rewrite Ho. simpl. exists []. rewrite app_nil_r.
    split_and!; [done|done|by intros ? [= <-]]. }
  rewrite (bool_decide_eq_false_2 _ Ho).
  destruct (bool_decide (method req = "GET")); simpl.
  2:{ exists []. rewrite app_nil_r. split_and!; [done|done|by intros ? [= <-]]. }
  destruct (validate (req_query req)) as [e|[error|v]]; simpl.
  - exists []. rewrite app_nil_r. split_and!; [done|done|discriminate].
  - exists []. rewrite app_nil_r. split_and!; [done|done|by intros ? [= <-]].
  - destruct (fetch_phase_run upstream cors (req_query req) v log) as (items & -> & _).
    exists (requests_of (req_query req) v).
    split_and!; [done| |by intros ? [= <-]].
    unfold requests_of. by rewrite length_map, registrationNumbers_unfold.
Qed.

Lemma handler_status_witness :
  ∃ resp,
    (handler example_upstream {| method := "GET"; req_query :=
       {| reg_no := Some (QStr "2110511099"); year := None;
          semester := None; exam_held := None |} |} []).1 = inr resp ∧
    statusCode resp = 400.
Proof.
  destruct (handler_status_and_requests example_upstream
              {| method := "GET"; req_query :=
                 {| reg_no := Some (QStr "2110511099"); year := None;
                    semester := None; exam_held := None |} |} [])
    as (requests & _ & _ & Hstatus).
  eexists. split; [reflexivity|]. apply Hstatus. reflexivity.
Defined.

(** A request that gives [semester] twice and nothing else wrong. *)
Definition twice_semester (q : query) : Prop :=
  is_repeated (semester q) = true ∧
  eleven_decimal_digits (reg_no q) = true ∧ parses_as_integer (year q) = true.

(** X3: The handler of [result.js] throws, instead of answering, exactly on the
    GET requests that repeat [semester] and have a valid [reg_no] and
    [year]; any other request is answered. *)
Theorem handler_throws_iff
    (upstream : fetch_request → js_error + api_response)
    (req : request) (log : list fetch_request) :
  (∃ e, (handler upstream req log).1 = inl e) ↔
  method req = "GET" ∧ twice_semester (req_query req).
Proof.
  unfold handler, twice_semester. rewrite handler_with_cases, validate_cascade.
  destruct (decide (method req = "OPTIONS")) as [Ho|Ho].
  { rewrite Ho. simpl. split; [by intros [e [=]]|by intros [[=] _]]. }
  rewrite (bool_decide_eq_false_2 _ Ho).
  destruct (decide (method req = "GET")) as [Hg|Hg].
  2:{ rewrite (bool_decide_eq_false_2 _ Hg). simpl.
      split; [by intros [e [=]]|by intros [? _]]. }
  rewrite (bool_decide_eq_true_2 _ Hg). simpl.
  destruct (eleven_decimal_digits (reg_no (req_query req))); simpl;
    [|split; [by intros [e [=]]|by intros (_ & _ & [=] & _)]].
  destruct (parses_as_integer (year (req_query req))); simpl;
    [|split; [by intros [e [=]]|by intros (_ & _ & _ & [=])]].
  destruct (is_repeated (semester (req_query req))); simpl;
    [split; [by intros _; split_and! | by intros _; eexists]|].
  destruct (roman_semester (semester (req_query req))); simpl;
    [|split; [by intros [e [=]]|by intros (_ & [=] & _)]].
  destruct (missing_or_empty (exam_held (req_query req))); simpl;
    [split; [by intros [e [=]]|by intros (_ & [=] & _)]|].
  destruct (fetch_phase_run upstream cors (req_query req)
              (locals_of (req_query req)) log) as (items & -> & _).
  split; [by intros [e [=]]|by intros (_ & [=] & _)].
Qed.

Lemma handler_throws_witness :
  ∃ e, (handler example_upstream
          {| method := "GET"; req_query :=
             {| reg_no := Some (QStr "21105110001"); year := Some (QStr "2023");
                semester := Some (QArr "III" "IV" ["V"]); exam_held := None |} |}
          []).1 = inl e.
Proof.
  apply (proj2 (handler_throws_iff example_upstream _ [])). by split_and!.
Defined.

(** ** The messages of the 400 answers *)

(** X4: [result.js] reports the first check that fails, in the order [reg_no],
    [year], [semester], [exam_held]: each of the four messages is sent
    exactly when its own check fails and the checks before it pass. *)
Theorem validate_reports_first_failure (q : query) :
  (validate q = inr (inl reg_no_message) ↔
   eleven_decimal_digits (reg_no q) = false) ∧
  (validate q = inr (inl year_message) ↔
   eleven_decimal_digits (reg_no q) = true ∧ parses_as_integer (year q) = false) ∧
  (validate q = inr (inl semester_message) ↔
   eleven_decimal_digits (reg_no q) = true ∧ parses_as_integer (year q) = true ∧
   is_repeated (semester q) = false ∧ roman_semester (semester q) = false) ∧
  (validate q = inr (inl exam_held_message) ↔
   eleven_decimal_digits (reg_no q) = true ∧ parses_as_integer (year q) = true ∧
   roman_semester (semester q) = true ∧ missing_or_empty (exam_held q) = true).
Proof.
  rewrite validate_cascade.
  assert (is_repeated (semester q) = true → roman_semester (semester q) = false)
    as Hsem by (by destruct (semester q) as [[|]|]).
  destruct (eleven_decimal_digits (reg_no q)), (parses_as_integer (year q)),
    (is_repeated (semester q)), (roman_semester (semester q)),
    (missing_or_empty (exam_held q));
    try (by specialize (Hsem eq_refl)); clear Hsem; simpl;
    split_and!;
    (split;
     [ intros H; first [ by split_and? | exfalso; revert H; vm_compute; discriminate ]
     | intros H; destruct_and?; by try discriminate ]).
Qed.

Lemma validate_first_failure_witness :
  validate {| reg_no := Some (QArr "21105110998" "21105110999" []); year := None;
              semester := None; exam_held := None |} = inr (inl reg_no_message) ∧
  validate {| reg_no := Some (QStr "21105110998"); year := Some (QStr "0x");
              semester := None; exam_held := None |} = inr (inl year_message) ∧
  validate {| reg_no := Some (QStr "21105110998"); year := Some (QStr "2024");
              semester := Some (QStr "IX"); exam_held := None |}
  = inr (inl semester_message) ∧
  validate {| reg_no := Some (QStr "21105110998"); year := Some (QStr "2024");
              semester := Some (QStr "viii"); exam_held := Some (QStr EmptyString) |}
  = inr (inl exam_held_message).
Proof.
  split_and!.
  - by apply (proj2 (proj1 (validate_reports_first_failure _))).
  - by apply (proj2 (proj1 (proj2 (validate_reports_first_failure _)))).
  - by apply (proj2 (proj1 (proj2 (proj2 (validate_reports_first_failure _))))).
  - by apply (proj2 (proj2 (proj2 (proj2 (validate_reports_first_failure _))))).
Defined.

(** X5: The 400 answer of [result.js] for a [startNum] that is not a number is
    never sent: a rejected query gets one of the four other messages. *)
Theorem startNum_message_never_sent (q : query) (error : string) :
  validate q = inr (inl error) →
  error ∈ [reg_no_message; year_message; semester_message; exam_held_message] ∧
  error ≠ "Could not parse starting number from reg_no.".
Proof.
  rewrite validate_cascade. intros H.
  assert (error ∈ [reg_no_message; year_message; semester_message; exam_held_message])
    as Hin.
  { revert H.
    repeat match goal with
           | |- context [if ?b then _ else _] => destruct b
           end; intros [= <-];
      repeat first [apply list_elem_of_here | apply list_elem_of_further]. }
  split; [done|]. intros ->. revert Hin. by apply (bool_decide_unpack _).
Qed.

Lemma startNum_message_witness :
  reg_no_message
    ∈ [reg_no_message; year_message; semester_message; exam_held_message] ∧
  reg_no_message ≠ "Could not parse starting number from reg_no.".
Proof.
  apply (startNum_message_never_sent
           {| reg_no := Some (QStr "2110511099x"); year := Some (QStr "2024");
              semester := Some (QStr "I"); exam_held := Some (QStr "2025") |}).
  reflexivity.
Defined.

(** ** The handler of part_000 *)

(** X6: The handler of [part_000] never asks the upstream server: it answers
    204, 405 or 400, whatever the query. *)
Theorem part_000_never_asks_upstream
    (upstream : fetch_request → js_error + api_response)
    (req : request) (log : list fetch_request) :
  (handler_part_000 upstream req log).2 = log ∧
  ∀ resp, (handler_part_000 upstream req log).1 = inr resp →
    statusCode resp = if bool_decide (method req = "OPTIONS") then 204
                      else if bool_decide (method req = "GET") then 400 else 405.
Proof.
  unfold handler_part_000. rewrite handler_with_cases.
  destruct (bool_decide (method req = "OPTIONS")).
  { split; [done|by intros ? [= <-]]. }
  destruct (bool_decide (method req = "GET")); simpl.
  2:{ split; [done|by intros ? [= <-]]. }
  destruct (validate_part_000 (req_query req)) as [e|[error|v]] eqn:Hv; simpl.
  - split; [done|discriminate].
  - split; [done|by intros ? [= <-]].
  - by destruct (part_000_never_fetches _ _ Hv).
Qed.

Lemma part_000_never_asks_witness :
  ∃ resp, (handler_part_000 example_upstream example_request []).1 = inr resp ∧
          statusCode resp = 400.
Proof.
  destruct (part_000_never_asks_upstream example_upstream example_request [])
    as [_ Hstatus].
  eexists. split; [reflexivity|]. apply Hstatus. reflexivity.
Defined.

(** X7: The handler of [part_000] throws on every GET request that repeats
    [semester], whatever the other parameters are, and on no other. *)
Theorem part_000_throws_iff
    (upstream : fetch_request → js_error + api_response)
    (req : request) (log : list fetch_request) :
  (∃ e, (handler_part_000 upstream req log).1 = inl e) ↔
  method req = "GET" ∧ is_repeated (semester (req_query req)) = true.
Proof.
  unfold handler_part_000. rewrite handler_with_cases.
  destruct (decide (method req = "OPTIONS")) as [Ho|Ho].
  { rewrite Ho. simpl. split; [by intros [e [=]]|by intros [[=] _]]. }
  rewrite (bool_decide_eq_false_2 _ Ho).
  destruct (decide (method req = "GET")) as [Hg|Hg].
  2:{ rewrite (bool_decide_eq_false_2 _ Hg). simpl.
      split; [by intros [e [=]]|by intros [? _]]. }
  rewrite (bool_decide_eq_true_2 _ Hg). simpl.
  rewrite validate_part_000_cascade.
  destruct (is_repeated (semester (req_query req))); simpl;
    [split; [by intros _ | by intros _; eexists]|].
  split; [|by intros [_ [=]]].
  repeat match goal with
         | |- context [if ?b then _ else _] => destruct b
         end; by intros [e [=]].
Qed.

Lemma part_000_throws_witness :
  ∃ e, (handler_part_000 example_upstream
          {| method := "GET"; req_query :=
             {| reg_no := None; year := None;
                semester := Some (QArr "I" "I" []); exam_held := None |} |}
          []).1 = inl e.
Proof.
  apply (proj2 (part_000_throws_iff example_upstream _ [])). by split.
Defined.

(** X8: In [part_000] the answer for a number that cannot be parsed is sent for
    one [reg_no] only, the eleven letters d that its pattern accepts. *)
Theorem part_000_parse_failure_iff (q : query) :
  validate_part_000 q = inr (inl "Failed to parse number from reg_no.") ↔
  reg_no q = Some (QStr "ddddddddddd") ∧ parses_as_integer (year q) = true ∧
  roman_semester (semester q) = true ∧ missing_or_empty (exam_held q) = false.
Proof.
  rewrite validate_part_000_cascade. split.
  - destruct (is_repeated (semester q)); [discriminate|].
    destruct (roman_semester (semester q)); simpl; [|discriminate].
    destruct (missing_or_empty (exam_held q)); [discriminate|].
    destruct (all_d (reg_no q)) eqn:Hd; simpl; [|discriminate].
    destruct (parses_as_integer (year q)); simpl; [|discriminate].
    intros _. split_and!; try done.
    destruct (reg_no q) as [[s|? ? ?]|]; try discriminate Hd.
    by apply bool_decide_eq_true in Hd as ->.
  - intros (-> & -> & Hr & ->). rewrite Hr.
    by destruct (semester q) as [[|]|].
Qed.

Lemma part_000_parse_failure_witness :
  validate_part_000 {| reg_no := Some (QStr "ddddddddddd"); year := Some (QStr "2024");
                       semester := Some (QStr "ii"); exam_held := Some (QStr "2025") |}
  = inr (inl "Failed to parse number from reg_no.").
Proof.
  apply (proj2 (part_000_parse_failure_iff _)). by split_and!.
Defined.

(** X9: The two files order the checks differently: for a query whose [reg_no]
    and [semester] are both invalid, [result.js] reports [reg_no] and
    [part_000] reports [semester]. *)
Theorem handlers_report_different_parameters (q : query) :
  eleven_decimal_digits (reg_no q) = false →
  is_repeated (semester q) = false → roman_semester (semester q) = false →
  validate q = inr (inl reg_no_message) ∧
  validate_part_000 q = inr (inl semester_message_part_000).
Proof.
  intros Hreg Hrep Hroman.
  by rewrite validate_cascade, validate_part_000_cascade, Hreg, Hrep, Hroman.
Qed.

Lemma handlers_report_different_witness :
  validate {| reg_no := Some (QStr "123"); year := Some (QStr "2024");
              semester := Some (QStr "9"); exam_held := Some (QStr "2025") |}
  = inr (inl reg_no_message) ∧
  validate_part_000 {| reg_no := Some (QStr "123"); year := Some (QStr "2024");
                       semester := Some (QStr "9"); exam_held := Some (QStr "2025") |}
  = inr (inl semester_message_part_000).
Proof. by apply handlers_report_different_parameters. Defined.

(** ** The numbers and the URLs of a batch *)

(** Printing the number that three digits write, padded to three
    characters, gives the three digits back. *)
Lemma suffix_three_digits (c1 c2 c3 : ascii) :
  is_digit c1 = true → is_digit c2 = true → is_digit c3 = true →
  let last := String c1 (String c2 (String c3 EmptyString)) in
  suffix (decimal_value last) = last.
Proof.
  intros H1%is_digit_cases H2%is_digit_cases H3%is_digit_cases.
  simpl in H1, H2, H3.
  set_unfold.
  destruct H1 as [->|[->|[->|[->|[->|[->|[->|[->|[->|[->|[]]]]]]]]]]];
  destruct H2 as [->|[->|[->|[->|[->|[->|[->|[->|[->|[->|[]]]]]]]]]]];
  destruct H3 as [->|[->|[->|[->|[->|[->|[->|[->|[->|[->|[]]]]]]]]]]];
  vm_compute; reflexivity.
Qed.

(** X10: The batch starts at the student asked for: the first registration
    number built is [reg_no] itself, leading zeros of its end included. *)
Theorem first_number_is_reg_no (q : query) (v : validated) (s : string) :
  validate q = inr (inr v) → reg_no q = Some (QStr s) →
  registrationNumbers (prefix v) (startNum v) !! 0%nat = Some s.
Proof.
  intros Hv Hs. pose proof (validate_cases q) as Hc. rewrite Hv in Hc.
  destruct Hc as (Hvalid & s' & sem & Hs' & _ & Hp & _ & Hn & _).
  rewrite Hs in Hs'. injection Hs' as <-.
  unfold valid_query in Hvalid. rewrite !andb_true_iff in Hvalid.
  destruct Hvalid as [[[Hreg _] _] _]. rewrite Hs, <- regex_digits_spec in Hreg.
  unfold regex_test in Hreg. apply andb_prop in Hreg as [Hlen Hdig].
  apply Nat.eqb_eq in Hlen.
  destruct (length_11_inv s Hlen)
    as (c1 & c2 & c3 & c4 & c5 & c6 & c7 & c8 & c9 & c10 & c11 & ->).
  simpl in Hdig. repeat (apply andb_prop in Hdig as [? Hdig]).
  rewrite registrationNumbers_unfold, Hp, Hn. simpl lookup.
  change (substring 8 3 _) with (String c9 (String c10 (String c11 EmptyString))).
  by rewrite suffix_three_digits.
Qed.

Lemma first_number_witness :
  registrationNumbers "21105110" 7 !! 0%nat = Some "21105110007".
Proof.
  apply (first_number_is_reg_no
           {| reg_no := Some (QStr "21105110007"); year := Some (QStr "2024");
              semester := Some (QStr "vi"); exam_held := Some (QStr "2025") |}
           {| prefix := "21105110"; startNum := 7; normalizedSemester := Some "VI" |});
    reflexivity.
Defined.

Definition suffixes_distinct (n : Z) : bool :=
  bool_decide (NoDup [suffix n; suffix (n + 1); suffix (n + 2);
                      suffix (n + 3); suffix (n + 4)]).

Lemma suffixes_distinct_all : forallb suffixes_distinct (seqZ 0 1000) = true.
Proof. vm_compute. reflexivity. Qed.

Lemma numbers_distinct (p : string) (n : Z) :
  0 ≤ n ≤ 999 → NoDup (registrationNumbers p n).
Proof.
  intros Hn. rewrite registrationNumbers_unfold.
  pose proof suffixes_distinct_all as H. rewrite forallb_forall in H.
  specialize (H n). unfold suffixes_distinct in H.
  rewrite bool_decide_eq_true in H.
  apply (NoDup_fmap_2 (String.app p)) in H.
  - exact H.
  - apply list_elem_of_In, elem_of_seqZ. lia.
Qed.

Lemma validated_startNum (q : query) (v : validated) :
  validate q = inr (inr v) → 0 ≤ startNum v ≤ 999.
Proof.
  intros Hv. pose proof (validate_cases q) as Hc. rewrite Hv in Hc.
  by destruct Hc as (_ & s & sem & _ & _ & _ & _ & _ & Hr & _).
Qed.

(** X11: The five registration numbers of a batch are different from each
    other, also when the batch crosses 999. *)
Theorem batch_numbers_distinct (q : query) (v : validated) :
  validate q = inr (inr v) →
  NoDup (registrationNumbers (prefix v) (startNum v)).
Proof. intros Hv. by eapply numbers_distinct, validated_startNum. Qed.

Lemma batch_numbers_distinct_witness :
  NoDup (registrationNumbers "21105110" 998).
Proof.
  apply (batch_numbers_distinct example_query
           {| prefix := "21105110"; startNum := 998; normalizedSemester := Some "IV" |}).
  reflexivity.
Defined.

Lemma string_app_inj_r (a b c : string) : a +:+ c = b +:+ c → a = b.
Proof.
  intros H.
  assert (String.length a = String.length b) as Hlen.
  { apply (f_equal String.length) in H. rewrite !string_length_app in H. lia. }
  revert b H Hlen. induction a as [|x a IH]; intros [|y b] H Hlen;
    try discriminate Hlen; [done|].
  simpl in H. injection H as -> H. f_equal. apply IH; [done|]. by injection Hlen.
Qed.

(** The URL of a request names one registration number. *)
Lemma request_url_inj (rn1 rn2 : string) (year : option qval)
    (semesterRoman : option string) (encodedExamHeld : string) :
  url (request_for rn1 year semesterRoman encodedExamHeld)
  = url (request_for rn2 year semesterRoman encodedExamHeld) → rn1 = rn2.
Proof.
  unfold request_for. simpl. intros H.
  do 4 apply String.app_inj in H. by apply string_app_inj_r in H.
Qed.

(** X12: The five requests of a batch go to five different URLs: no student is
    asked for twice. *)
Theorem batch_urls_distinct (q : query) (v : validated) :
  validate q = inr (inr v) → NoDup (url <$> requests_of q v).
Proof.
  intros Hv. unfold requests_of.
  change (map ?f ?l) with (f <$> l). rewrite <- list_fmap_compose.
  apply NoDup_fmap_2_strong; [|by eapply numbers_distinct, validated_startNum].
  intros rn1 rn2 _ _ H. by apply request_url_inj in H.
Qed.

Lemma batch_urls_distinct_witness :
  NoDup (url <$> requests_of example_query
           {| prefix := "21105110"; startNum := 998; normalizedSemester := Some "IV" |}).
Proof. apply batch_urls_distinct. reflexivity. Defined.

(** ** The item for each upstream answer *)

(** The answer is a batch whose item at index [i] is [item]. *)
Definition item_at (answer : js_error + response) (i : nat)
    (item : status_object) : Prop :=
  ∃ items,
    answer = inr {| statusCode := 200; headers := cors; sent := BatchJson items |} ∧
    items !! i = Some item.

Definition not_found_item (rn : string) : status_object :=
  {| status := "Record not found"; regNo := Some rn; reason := None; data := None |}.

Definition error_item (rn reason : string) : status_object :=
  {| status := "Error fetching result (temporary)"; regNo := Some rn;
     reason := Some (JStr reason); data := None |}.

Lemma handler_item (upstream : fetch_request → js_error + api_response)
    (req : request) (v : validated) (log : list fetch_request)
    (i : nat) (rn : string) (val item : status_object) :
  method req = "GET" → validate (req_query req) = inr (inr v) →
  registrationNumbers (prefix v) (startNum v) !! i = Some rn →
  (fetchSingleResult upstream rn (year (req_query req)) (normalizedSemester v)
     (encodeURIComponent (ToString (exam_held (req_query req)))) []).1 = inr val →
  shape [] 0 (fulfilled val) = inr item →
  item_at (handler upstream req log).1 i item.
Proof.
  intros Hm Hv Hrn Hval Hitem.
  destruct (handler_run upstream req v log Hm Hv) as (items & Hrun & Hb).
  destruct (batch_of_lookup _ _ _ _ _ _ Hb Hrn) as (item' & val' & Hi & _ & Hval' & Hitem').
  rewrite Hval in Hval'. injection Hval' as <-.
  rewrite Hitem in Hitem'. injection Hitem' as <-.
  exists items. by rewrite Hrun.
Qed.

Definition conversion_error : js_error :=
  TypeError "Cannot convert object to primitive value".

Lemma join_throws {A} (f : A → js_error + string) (l : list A) (e c : js_error) :
  Forall (λ x, ∀ e, f x = inl e → e = c) l → join f l = inl e → e = c.
Proof.
  intros Hl. revert e. induction Hl as [|x l Hx _ IH]; intros e; [discriminate|].
  simpl. destruct (f x) as [e'|first] eqn:Hfx; simpl.
  - intros [= <-]. by apply Hx.
  - destruct l as [|y l]; [discriminate|].
    destruct (join f (y :: l)) as [e'|rest]; simpl; [|discriminate].
    intros [= <-]. by apply IH.
Qed.

Lemma element_throws (x : json) (e : js_error) :
  match x with JNull => inr EmptyString | _ => json_ToString x end = inl e →
  json_ToString x = inl e.
Proof. by destruct x. Qed.

(** The conversion to a string throws one error only. *)
Lemma json_ToString_throws (v : json) (e : js_error) :
  json_ToString v = inl e → e = conversion_error.
Proof.
  revert v e. fix IH 1. intros [| b | t | s | l | m] e; simpl; try discriminate.
  - apply join_throws. clear e. revert l. fix IHl 1. intros [|x l]; constructor.
    + intros e Hx. exact (IH x e (element_throws x e Hx)).
    + apply IHl.
  - destruct (bool_decide _); [by intros [= <-]|discriminate].
Qed.

(** What the code writes after 'BEU API Data Error: ': the upstream message
    when there is one that is truthy, and 'Status' with the upstream status
    otherwise. *)
Definition data_error_detail (top : gmap string json) : js_error + string :=
  if json_truthy (top !! "message") then template (top !! "message")
  else status_text ← template (top !! "status"); mret ("Status " +:+ status_text).

Section Items.

Variable upstream : fetch_request → js_error + api_response.
Variables (req : request) (v : validated) (log : list fetch_request).
Variables (i : nat) (rn : string).

Hypothesis GET : method req = "GET".
Hypothesis validated_locals : validate (req_query req) = inr (inr v).
Hypothesis number : registrationNumbers (prefix v) (startNum v) !! i = Some rn.

(** The answer of the upstream server to the request for [rn]. *)
Definition answer_for : js_error + api_response :=
  upstream (request_for rn (year (req_query req)) (normalizedSemester v)
              (encodeURIComponent (ToString (exam_held (req_query req))))).

Ltac run_fetch :=
  unfold fetchSingleResult, try_catch, mbind, Async_bind, fetch, lift, mret, Async_ret;
  fold (request_for rn (year (req_query req)) (normalizedSemester v)
          (encodeURIComponent (ToString (exam_held (req_query req)))));
  fold answer_for.

(** X13: When the upstream JSON has status 404, the item says 'Record not
    found' and nothing more: the message of the upstream server is not
    passed on, whatever else the JSON holds. *)
Theorem not_found_item_drops_message (resp : api_response) (top : gmap string json) :
  answer_for = inr resp → ok resp = true → body_json resp = inr (JObj top) →
  top !! "status" = Some (JNum 404) →
  item_at (handler upstream req log).1 i (not_found_item rn).
Proof.
  intros Hup Hok Hbody Hstatus.
  eapply (handler_item upstream req v log i rn
            {| status := "not_found"; regNo := Some rn;
               reason := or_else (top !! "message") (JStr "Record not found.");
               data := None |}); try done.
  run_fetch. rewrite Hup, Hok. simpl. rewrite Hbody. simpl. by rewrite Hstatus.
Qed.

(** X14: When the upstream HTTP status is not in 200-299, the body is not read
    and the item is an error with the reason 'BEU API Error: HTTP' and the
    status. *)
Theorem http_error_item (resp : api_response) :
  answer_for = inr resp → ok resp = false →
  item_at (handler upstream req log).1 i
    (error_item rn ("BEU API Error: HTTP " +:+ Number_toString (http_status resp))).
Proof.
  intros Hup Hok.
  eapply (handler_item upstream req v log i rn
            {| status := "error"; regNo := Some rn;
               reason := Some (JStr ("BEU API Error: HTTP "
                                     +:+ Number_toString (http_status resp)));
               data := None |}); try done.
  run_fetch. by rewrite Hup, Hok.
Qed.

(** X15: When [fetch] or the reading of the body fails, the item is an error
    whose reason is 'Request Timed Out' for an abort and 'Fetch Error:' with
    the message of the error otherwise. *)
Theorem failure_item (e : js_error) :
  fails_with answer_for e →
  item_at (handler upstream req log).1 i
    (error_item rn (if bool_decide (name e = "AbortError") then "Request Timed Out"
                    else "Fetch Error: " +:+ message e)).
Proof.
  intros Hfail.
  eapply (handler_item upstream req v log i rn
            {| status := "error"; regNo := Some rn;
               reason := Some (JStr (if bool_decide (name e = "AbortError")
                                     then "Request Timed Out"
                                     else "Fetch Error: " +:+ message e));
               data := None |}); try done.
  - run_fetch. destruct Hfail as [->|(resp & -> & Hok & Hbody)]; [done|].
    rewrite Hok. simpl. by rewrite Hbody.
  - unfold shape, error_item. simpl. by destruct (bool_decide (name e = "AbortError")).
Qed.

(** X16: When the upstream JSON is an object whose status is not 404 and which
    has not both the status 200 and a usable [data], the item is an error.
    Its reason is 'BEU API Data Error:' followed by the upstream message
    or, without one, by 'Status' and the status; when the value to print
    is an object with a [toString] property of its own (or an array that
    holds one), the template literal throws and the reason is the 'Fetch
    Error:' of the catch block. *)
Theorem data_error_item (resp : api_response) (top : gmap string json) :
  answer_for = inr resp → ok resp = true → body_json resp = inr (JObj top) →
  strict_eq (top !! "status") 404 = false →
  strict_eq (top !! "status") 200 && json_truthy (top !! "data") = false →
  item_at (handler upstream req log).1 i
    (error_item rn
       match data_error_detail top with
       | inr detail => "BEU API Data Error: " +:+ detail
       | inl _ => "Fetch Error: Cannot convert object to primitive value"
       end).
Proof.
  intros Hup Hok Hbody H404 H200.
  eapply (handler_item upstream req v log i rn
            {| status := "error"; regNo := Some rn;
               reason := Some (JStr match data_error_detail top with
                                    | inr detail => "BEU API Data Error: " +:+ detail
                                    | inl _ => "Fetch Error: Cannot convert object to primitive value"
                                    end);
               data := None |}); try done.
  - run_fetch. rewrite Hup, Hok. simpl. rewrite Hbody. simpl. rewrite H404.
    rewrite <- negb_andb, H200. simpl.
    change (if json_truthy (top !! "message") then _ else _)
      with (data_error_detail top).
    destruct (data_error_detail top) as [e|detail] eqn:Hdetail; [|done].
    assert (e = conversion_error) as ->; [|done].
    unfold data_error_detail in Hdetail.
    destruct (json_truthy (top !! "message")).
    + destruct (top !! "message"); [|discriminate Hdetail].
      by apply json_ToString_throws in Hdetail.
    + destruct (top !! "status") as [st|]; [|discriminate Hdetail].
      simpl in Hdetail. unfold mbind, Exc_bind in Hdetail.
      destruct (json_ToString st) eqn:Hst; [|discriminate Hdetail].
      injection Hdetail as <-. by apply json_ToString_throws in Hst.
  - unfold shape, error_item. simpl. by destruct (data_error_detail top).
Qed.

End Items.

(** An upstream server that knows the first student of the batch of
    [example_request] only: the second is not found, the third request
    meets a server error, the fourth a broken connection, and the fifth an
    answer without data. *)
Definition example_locals : validated :=
  {| prefix := "21105110"; startNum := 998; normalizedSemester := Some "IV" |}.

Definition example_request_for (rn : string) : fetch_request :=
  request_for rn (Some (QStr "2024")) (Some "IV") "July%2F2025".

Definition mixed_upstream : fetch_request → js_error + api_response := λ r,
  if bool_decide (url r = url (example_request_for "21105110999")) then
    inr {| http_status := 200;
           body_json := inr (JObj (list_to_map [("status", JNum 404);
                                                ("message", JStr "No record")])) |}
  else if bool_decide (url r = url (example_request_for "211051101000")) then
    inr {| http_status := 503; body_json := inl {| name := "SyntaxError";
                                                   message := "Unexpected token <" |} |}
  else if bool_decide (url r = url (example_request_for "211051101001")) then
    inl {| name := "FetchError"; message := "socket hang up" |}
  else if bool_decide (url r = url (example_request_for "211051101002")) then
    inr {| http_status := 200;
           body_json := inr (JObj (list_to_map [("status", JNum 200)])) |}
  else example_upstream r.

Lemma not_found_item_witness :
  item_at (handler mixed_upstream example_request []).1 1
    (not_found_item "21105110999").
Proof.
  eapply (not_found_item_drops_message mixed_upstream example_request example_locals);
    reflexivity.
Defined.

Lemma http_error_item_witness :
  item_at (handler mixed_upstream example_request []).1 2
    (error_item "211051101000" "BEU API Error: HTTP 503").
Proof.
  apply (http_error_item mixed_upstream example_request example_locals
           [] 2 "211051101000" eq_refl eq_refl eq_refl
           {| http_status := 503;
              body_json := inl {| name := "SyntaxError";
                                  message := "Unexpected token <" |} |});
    reflexivity.
Defined.

Lemma failure_item_witness :
  item_at (handler mixed_upstream example_request []).1 3
    (error_item "211051101001" "Fetch Error: socket hang up").
Proof.
  eapply (failure_item mixed_upstream example_request example_locals
            [] 3 "211051101001" eq_refl eq_refl eq_refl
            {| name := "FetchError"; message := "socket hang up" |}).
  left. reflexivity.
Defined.

Lemma data_error_item_witness :
  item_at (handler mixed_upstream example_request []).1 4
    (error_item "211051101002" "BEU API Data Error: Status 200").
Proof.
  exact (data_error_item mixed_upstream example_request example_locals
           [] 4 "211051101002" eq_refl eq_refl eq_refl
           {| http_status := 200;
              body_json := inr (JObj (list_to_map [("status", JNum 200)])) |}
           (list_to_map [("status", JNum 200)])
           eq_refl eq_refl eq_refl eq_refl eq_refl).
Defined.

(** ** The reasons of the error items *)

(** The reasons that [fetchSingleResult] gives for an error. *)
Inductive error_reason : string → Prop :=
| reason_timed_out : error_reason "Request Timed Out"
| reason_fetch_error (m : string) : error_reason ("Fetch Error: " +:+ m)
| reason_http (t : string) : error_reason ("BEU API Error: HTTP " +:+ t)
| reason_data (t : string) : error_reason ("BEU API Data Error: " +:+ t).

Lemma error_reason_not_fallback (r : string) :
  error_reason r →
  r ≠ EmptyString ∧ r ≠ "Unknown error" ∧ r ≠ "Promise rejected".
Proof. intros []; split_and!; discriminate. Qed.

Lemma fetchSingleResult_error_reason
    (upstream : fetch_request → js_error + api_response) (rn : string)
    (year : option qval) (semesterRoman : option string) (encodedExamHeld : string)
    (val : status_object) :
  (fetchSingleResult upstream rn year semesterRoman encodedExamHeld []).1 = inr val →
  status val = "error" → ∃ r, reason val = Some (JStr r) ∧ error_reason r.
Proof.
  unfold fetchSingleResult, try_catch, mbind, Async_bind, fetch, lift, mret, Async_ret.
  destruct (upstream _) as [e|resp].
  { simpl. intros [= <-] _. eexists. split; [reflexivity|].
    destruct (bool_decide _); constructor. }
  destruct (ok resp); simpl;
    [|intros [= <-] _; eexists; split; [reflexivity|constructor]].
  destruct (body_json resp) as [e|j].
  { simpl. intros [= <-] _. eexists. split; [reflexivity|].
    destruct (bool_decide _); constructor. }
  destruct (get_prop j "status") as [e|st] eqn:Hst.
  { simpl. intros [= <-] _. eexists. split; [reflexivity|].
    destruct (bool_decide _); constructor. }
  assert (∀ k, ∃ p, get_prop j k = inr p) as Hget.
  { intros k. destruct j; simpl in *; try discriminate Hst; eauto. }
  destruct (strict_eq st 404).
  - destruct (Hget "message") as [p ->]. simpl. intros [= <-]. discriminate.
  - destruct (Hget "data") as [d ->]. destruct (Hget "message") as [p ->].
    destruct (negb (strict_eq st 200) || negb (json_truthy d));
      [|simpl; intros [= <-]; discriminate].
    match goal with
    | |- context [if json_truthy p then ?a else ?b] =>
        destruct (if json_truthy p then a else b) as [e|detail]
    end; simpl; intros [= <-] _; eexists; (split; [reflexivity|]);
      [destruct (bool_decide _)|]; constructor.
Qed.

(** The items that are errors, with a reason of [fetchSingleResult] each. *)
Definition errors_explained (items : list status_object) : Prop :=
  Forall (λ item, status item = "Error fetching result (temporary)" →
                  ∃ r, reason item = Some (JStr r) ∧ error_reason r ∧
                       r ≠ "Unknown error" ∧ r ≠ "Promise rejected") items.

(** X17: The reason of an error item is always one of the four that
    [fetchSingleResult] writes ('Request Timed Out', 'Fetch Error: ...',
    'BEU API Error: HTTP ...', 'BEU API Data Error: ...'): the fallback
    reasons 'Unknown error' and 'Promise rejected' of the handler are never
    sent. *)
Theorem error_items_carry_fetch_reason
    (upstream : fetch_request → js_error + api_response) (req : request)
    (log : list fetch_request) (items : list status_object) :
  passes_validation req = true →
  (handler upstream req log).1
  = inr {| statusCode := 200; headers := cors; sent := BatchJson items |} →
  errors_explained items.
Proof.
  intros [Hm [v Hv]]%passes_validation_inv Hanswer.
  destruct (handler_run upstream req v log Hm Hv) as (items' & Hrun & Hb).
  rewrite Hrun in Hanswer. injection Hanswer as ->.
  apply Forall_lookup. intros i item Hi Hstatus.
  destruct (Forall2_lookup_r _ _ _ _ _ Hb Hi) as (rn & _ & val & Hw & Hval & Hs).
  destruct (shape_cases rn val item Hw Hs) as [_ Hcases].
  destruct Hcases as [(_ & E & _)|[(_ & E & _)|(Hverr & _)]];
    try (rewrite E in Hstatus; discriminate Hstatus).
  destruct (fetchSingleResult_error_reason _ _ _ _ _ _ Hval Hverr) as (r & Hr & Her).
  destruct (error_reason_not_fallback r Her) as (Hne & Hu & Hp).
  exists r. split_and!; try done.
  revert Hs. unfold shape. rewrite Hverr, Hr. simpl.
  intros [= <-]. simpl. unfold or_else. simpl.
  by rewrite bool_decide_eq_false_2.
Qed.

Lemma error_items_witness :
  ∃ items,
    (handler mixed_upstream example_request []).1
    = inr {| statusCode := 200; headers := cors; sent := BatchJson items |} ∧
    errors_explained items.
Proof.
  eexists. split; [reflexivity|].
  apply (error_items_carry_fetch_reason mixed_upstream example_request []);
    reflexivity.
Defined.

(** ** One item, one answer *)

(** X18: An item depends on the upstream answer to its own request only: two
    upstream servers that answer alike for one number give the same item
    for it, whatever they answer for the other numbers of the batch. *)
Theorem item_depends_on_own_answer
    (upstream1 upstream2 : fetch_request → js_error + api_response)
    (req : request) (v : validated) (log1 log2 : list fetch_request)
    (i : nat) (rn : string) :
  passes_validation req = true →
  validate (req_query req) = inr (inr v) →
  registrationNumbers (prefix v) (startNum v) !! i = Some rn →
  answer_for upstream1 req v rn = answer_for upstream2 req v rn →
  ∃ item, item_at (handler upstream1 req log1).1 i item ∧
          item_at (handler upstream2 req log2).1 i item.
Proof.
  intros [Hm _]%passes_validation_inv Hv Hrn Hagree.
  destruct (handler_run upstream1 req v log1 Hm Hv) as (items1 & Hrun1 & Hb1).
  destruct (batch_of_lookup _ _ _ _ _ _ Hb1 Hrn) as (item & val & Hi & _ & Hval & Hitem).
  exists item. split; [exists items1; by rewrite Hrun1|].
  eapply handler_item; try done.
  by rewrite <- (fetchSingleResult_ext upstream1 upstream2).
Qed.

Lemma item_depends_witness :
  ∃ item, item_at (handler example_upstream example_request []).1 0 item ∧
          item_at (handler mixed_upstream example_request []).1 0 item.
Proof.
  apply (item_depends_on_own_answer example_upstream mixed_upstream example_request
           example_locals [] [] 0 "21105110998"); reflexivity.
Defined.

(** ** The function mapped over the settled results *)

(** X19: [shape] throws in one case only: a result marked 'success' without
    data.  An unknown status, a missing reason or a rejected promise give
    an item. *)
Theorem shape_throws_iff (rns : list string) (index : nat)
    (result : settled status_object) :
  (∃ e, shape rns index result = inl e) ↔
  ∃ val, result = fulfilled val ∧ status val = "success" ∧
         (data val = None ∨ data val = Some JNull).
Proof.
  destruct result as [val|e]; unfold shape.
  2:{ split; [by intros [? [=]]|by intros (? & [=] & _)]. }
  destruct (decide (status val = "success")) as [Hs|Hs].
  - rewrite (bool_decide_eq_true_2 _ Hs). split.
    + intros [e He]. exists val. split_and!; try done.
      destruct (data val) as [[]|]; simpl in He; try discriminate He; eauto.
    + intros (? & [= <-] & _ & [->| ->]); simpl; eauto.
  - rewrite (bool_decide_eq_false_2 _ Hs). split.
    + destruct (bool_decide (status val = "not_found")); by intros [? [=]].
    + by intros (? & [= <-] & ? & _).
Qed.

Lemma shape_throws_witness :
  ∃ e, shape [] 0 (fulfilled {| status := "success"; regNo := Some "21105110001";
                                reason := None; data := None |}) = inl e.
Proof.
  apply (proj2 (shape_throws_iff _ _ _)). eexists. split_and!; try reflexivity.
  by left.
Defined.

(** ** The parameters as they reach the upstream URL *)

Definition with_semester (q : query) (sem : string) : query :=
  {| reg_no := reg_no q; year := year q;
     semester := Some (QStr sem); exam_held := exam_held q |}.

(** X20: [semester] is read without regard to case: two requests that differ in
    the case of its letters only are answered alike and ask the upstream
    server the same. *)
Theorem semester_case_is_ignored
    (upstream : fetch_request → js_error + api_response) (m : string)
    (q : query) (sem1 sem2 : string) (log : list fetch_request) :
  toUpperCase sem1 = toUpperCase sem2 →
  handler upstream {| method := m; req_query := with_semester q sem1 |} log
  = handler upstream {| method := m; req_query := with_semester q sem2 |} log.
Proof.
  intros H. unfold handler. rewrite !handler_with_cases, !validate_cascade.
  unfold locals_of, with_semester, roman_semester. simpl. by rewrite H.
Qed.

Lemma semester_case_witness :
  handler example_upstream
    {| method := "GET"; req_query := with_semester example_query "iv" |} []
  = handler example_upstream
      {| method := "GET"; req_query := with_semester example_query "Iv" |} [].
Proof. by apply semester_case_is_ignored. Defined.

Lemma hex_digit_unreserved (n : N) : (n < 16)%N → is_unreserved (hex_digit n) = true.
Proof.
  intros Hn.
  assert (n ∈ N.of_nat <$> seq 0 16) as Hin.
  { apply list_elem_of_fmap. exists (N.to_nat n). split; [lia|].
    apply list_elem_of_In, in_seq. lia. }
  simpl in Hin. set_unfold.
  repeat (destruct Hin as [->|Hin]; [reflexivity|]). destruct Hin.
Qed.

Lemma encodeURIComponent_chars (s : string) (c : ascii) :
  c ∈ list_ascii_of_string (encodeURIComponent s) →
  is_unreserved c = true ∨ c = "%"%char.
Proof.
  induction s as [|x s IH]; simpl; [by intros ?%elem_of_nil|].
  rewrite list_ascii_app, elem_of_app. intros [H|H]; [|by apply IH].
  destruct (is_unreserved x) eqn:Hx; simpl in H; set_unfold.
  - destruct H as [->|[]]. by left.
  - destruct H as [->|[->|[->|[]]]]; [by right|left..];
      apply hex_digit_unreserved.
    + assert (N_of_ascii x < 256)%N by apply N_ascii_bounded.
      apply N.Div0.div_lt_upper_bound. lia.
    + by apply N.mod_lt.
Qed.

Lemma string_app_assoc (a b c : string) : (a +:+ b) +:+ c = a +:+ (b +:+ c).
Proof.
  induction a as [|x a IH]; [reflexivity|].
  change (String x ((a +:+ b) +:+ c) = String x (a +:+ (b +:+ c))). by f_equal.
Qed.

(** The inverse of the percent-encoding: [%] and two hexadecimal digits
    stand for the character of that code, any other character for
    itself. *)
Definition hex_value (c : ascii) : option N :=
  match digit_value c with
  | Some d => if d <? 16 then Some (Z.to_N d) else None
  | None => None
  end.

Fixpoint percent_decode (s : string) : string :=
  match s with
  | EmptyString => EmptyString
  | String c s1 =>
      if bool_decide (c = "%"%char) then
        match s1 with
        | String a (String b rest) =>
            match hex_value a, hex_value b with
            | Some x, Some y => String (ascii_of_N (16 * x + y)) (percent_decode rest)
            | _, _ => String c (percent_decode s1)
            end
        | _ => String c (percent_decode s1)
        end
      else String c (percent_decode s1)
  end.

Lemma percent_decode_char (c : ascii) (rest : string) :
  percent_decode
    ((if is_unreserved c then String c EmptyString
      else String "%" (String (hex_digit (N_of_ascii c / 16))
                         (String (hex_digit (N_of_ascii c mod 16)) EmptyString)))
     +:+ rest)
  = String c (percent_decode rest).
Proof. by destruct c as [[] [] [] [] [] [] [] []]. Qed.

(** Nothing of a string is lost in its encoding. *)
Lemma percent_decode_encode (s : string) :
  percent_decode (encodeURIComponent s) = s.
Proof.
  induction s as [|c s IH]; [done|].
  cbn [encodeURIComponent]. by rewrite percent_decode_char, IH.
Qed.

(** The URL of [r] is the one of a request of the batch, and [e] is what
    follows [&exam_held=] in it. *)
Definition exam_held_in_url (q : query) (v : validated) (r : fetch_request)
    (e : string) : Prop :=
  ∃ rn, rn ∈ registrationNumbers (prefix v) (startNum v) ∧
        url r = (RESULT_API_BASE_URL +:+ "?year=" +:+ ToString (year q)
                 +:+ "&redg_no=" +:+ rn
                 +:+ "&semester=" +:+ String_template (normalizedSemester v))
                +:+ "&exam_held=" +:+ e.

(** The string [e] is the percent-encoding of [s]: it decodes to [s] and
    is made of unreserved characters and [%] only, so that it holds none of
    the characters that delimit the parts of a URL. *)
Definition percent_encodes (e s : string) : Prop :=
  percent_decode e = s ∧
  ∀ c, c ∈ list_ascii_of_string e →
       (is_unreserved c = true ∨ c = "%"%char) ∧
       c ∉ list_ascii_of_string "&=# ?/+".

(** X21: [exam_held] reaches the URL percent-encoded: in every request of the
    batch the URL ends with [&exam_held=] and the encoding of the value of
    [exam_held], from which the value can be read back and which holds no
    [&], [=], [#], [?], [/], [+] or space. *)
Theorem exam_held_is_encoded (q : query) (v : validated) (r : fetch_request) :
  r ∈ requests_of q v →
  ∃ e, exam_held_in_url q v r e ∧ percent_encodes e (ToString (exam_held q)).
Proof.
  unfold requests_of. change (map ?f ?l) with (f <$> l).
  intros (rn & -> & Hrn)%list_elem_of_fmap.
  exists (encodeURIComponent (ToString (exam_held q))). split; [|split].
  - exists rn. split; [done|].
    unfold request_for. cbn [url]. by rewrite !string_app_assoc.
  - apply percent_decode_encode.
  - intros c Hc. apply encodeURIComponent_chars in Hc. split; [done|].
    intros Hbad. simpl in Hbad. set_unfold.
    destruct Hc as [Hc| ->].
    + repeat (destruct Hbad as [->|Hbad]; [discriminate Hc|]). destruct Hbad.
    + repeat (destruct Hbad as [Hbad|Hbad]; [discriminate Hbad|]). destruct Hbad.
Qed.

Lemma exam_held_is_encoded_witness :
  ∃ e, exam_held_in_url example_query example_locals
         (example_request_for "21105110998") e ∧
       percent_encodes e "July/2025".
Proof.
  apply (exam_held_is_encoded example_query example_locals).
  apply list_elem_of_here.
Defined.

Lemma parse_digits_Some (radix : Z) (s : string) (n : Z) :
  is_Some (parse_digits radix s (Some n)).
Proof.
  revert n. induction s as [|c s IH]; intros n; simpl; [done|].
  destruct (digit_value c) as [d|]; [|done]. by destruct (d <? radix).
Qed.

Lemma parseInt_leading_digit (c : ascii) (tail : string) :
  is_digit c = true → c ≠ "0"%char → is_Some (parseInt (String c tail) None).
Proof.
  intros Hc%is_digit_cases H0. simpl in Hc. set_unfold.
  destruct Hc as [->|Hc]; [done|].
  repeat (destruct Hc as [->|Hc];
          [unfold parseInt; simpl; apply fmap_is_Some, parse_digits_Some|]).
  destruct Hc.
Qed.

(** The start of the URL of a request, up to the value of [year]. *)
Definition year_in_url (r : fetch_request) (y : string) : Prop :=
  ∃ rest, url r = RESULT_API_BASE_URL +:+ "?year=" +:+ y +:+ rest.

(** X22: Only the start of [year] is checked, and [year] is not encoded: a year
    that begins with a digit from 1 to 9 passes the check whatever follows
    the digit, and the whole of it is put in the URL of every request as it
    was given. *)
Theorem year_checked_by_its_start (q : query) (v : validated)
    (c : ascii) (tail : string) :
  year q = Some (QStr (String c tail)) → is_digit c = true → c ≠ "0"%char →
  parses_as_integer (year q) = true ∧
  ∀ r, r ∈ requests_of q v → year_in_url r (String c tail).
Proof.
  intros Hy Hc H0. split.
  - rewrite Hy. unfold parses_as_integer. apply bool_decide_eq_true.
    by apply parseInt_leading_digit.
  - unfold requests_of. change (map ?f ?l) with (f <$> l).
    intros r (rn & -> & _)%list_elem_of_fmap.
    unfold year_in_url, request_for. rewrite Hy. simpl. eexists. reflexivity.
Qed.

Definition injected_query : query :=
  {| reg_no := Some (QStr "21105110998");
     year := Some (QStr "2024&redg_no=21105119999");
     semester := Some (QStr "I"); exam_held := Some (QStr "2025") |}.

Lemma year_checked_witness :
  validate injected_query = inr (inr (locals_of injected_query)) ∧
  parses_as_integer (year injected_query) = true ∧
  ∀ r, r ∈ requests_of injected_query (locals_of injected_query) →
       year_in_url r "2024&redg_no=21105119999".
Proof.
  split; [reflexivity|].
  apply (year_checked_by_its_start injected_query (locals_of injected_query)
           "2" "024&redg_no=21105119999"); [reflexivity|reflexivity|discriminate].
Defined.

(** ** When a fetch counts as a success *)

(** The upstream answer that makes a success with the data [d]: an HTTP
    status in 200-299 and a JSON object whose [status] is the number 200 and
    whose [data] is [d], a value other than [null], [false], 0 and the
    empty string. *)
Definition success_answer (answer : js_error + api_response) (d : json) : Prop :=
  ∃ resp top,
    answer = inr resp ∧ ok resp = true ∧ body_json resp = inr (JObj top) ∧
    top !! "status" = Some (JNum 200) ∧ top !! "data" = Some d ∧
    json_truthy (Some d) = true.

(** X23: [fetchSingleResult] returns 'success' for such an answer, with its
    data, and for no other: a status 200 given as a string, a missing or
    empty data, a JSON that is not an object and an HTTP error are not
    successes. *)
Theorem fetch_succeeds_iff
    (upstream : fetch_request → js_error + api_response) (rn : string)
    (year : option qval) (semesterRoman : option string) (encodedExamHeld : string)
    (val : status_object) :
  (fetchSingleResult upstream rn year semesterRoman encodedExamHeld []).1 = inr val →
  (∀ d, success_answer
          (upstream (request_for rn year semesterRoman encodedExamHeld)) d →
        status val = "success" ∧ data val = Some d) ∧
  (status val = "success" →
   ∃ d, success_answer
          (upstream (request_for rn year semesterRoman encodedExamHeld)) d ∧
        data val = Some d).
Proof.
  unfold fetchSingleResult, try_catch, mbind, Async_bind, fetch, lift, mret, Async_ret.
  fold (request_for rn year semesterRoman encodedExamHeld). unfold success_answer.
  intros Hval. split.
  { intros d (resp & top & Hup & Hok & Hbody & Hst & Hdata & Ht).
    revert Hval. rewrite Hup, Hok. simpl. rewrite Hbody. simpl.
    rewrite Hst, Hdata, Ht. simpl. by intros [= <-]. }
  revert Hval.
  destruct (upstream _) as [e|resp]; [by simpl; intros [= <-]|].
  destruct (ok resp) eqn:Hok; simpl; [|by intros [= <-]].
  destruct (body_json resp) as [e|j] eqn:Hbody; [by simpl; intros [= <-]|].
  destruct j as [|b|t|s|l|top]; simpl;
    try (by intros [= <-]);
    try (match goal with
         | |- context [if ?c then _ else _] => destruct c
         end; by intros [= <-]).
  destruct (strict_eq (top !! "status") 404) eqn:H404; [by intros [= <-]|].
  destruct (strict_eq (top !! "status") 200) eqn:H200; simpl.
  2:{ repeat case_match; simplify_eq; by intros [= <-]. }
  destruct (json_truthy (top !! "data")) eqn:Hd; simpl.
  2:{ repeat case_match; simplify_eq; by intros [= <-]. }
  intros [= <-] _. simpl.
  destruct (top !! "data") as [d|] eqn:Hdata; [|discriminate Hd].
  exists d. split; [|done]. exists resp, top. split_and!; try done.
  destruct (top !! "status") as [[]|]; try discriminate H200.
  simpl in H200. by apply bool_decide_eq_true in H200 as ->.
Qed.

Lemma fetch_succeeds_witness :
  status {| status := "success"; regNo := Some "21105110998"; reason := None;
            data := Some (JObj example_fields) |} = "success" ∧
  Some (JObj example_fields) = Some (JObj example_fields).
Proof.
  apply (proj1 (fetch_succeeds_iff example_upstream "21105110998"
                  (Some (QStr "2024")) (Some "IV") "July%2F2025"
                  {| status := "success"; regNo := Some "21105110998"; reason := None;
                     data := Some (JObj example_fields) |} eq_refl)).
  eexists _, _. split_and!; reflexivity.
Defined.
